(** * Schema catalog of the listings API: types, payloads and conformance

    The repository is a catalog of TypeScript declarations (index.ts,
    listings.ts, searches.ts, clients.ts, estimate.ts, favorites.ts,
    messages.ts).  The declarations are embedded below as values of a
    small type language; JSON payloads are embedded as trees; and the
    meaning of a declaration is the set of payloads that match it. *)

From Stdlib Require Import String Ascii List Bool ZArith QArith Lia.
Import ListNotations.
Close Scope Q_scope.
Open Scope string_scope.
Open Scope list_scope.

(** ** JSON payloads *)

Unset Elimination Schemes.

Inductive json : Type :=
| JNull
| JBool (b : bool)
| JNum (q : Q)
| JStr (s : string)
| JArr (items : list json)
| JObj (members : list (string * json)).

(** [o[k]] on a parsed object. *)
Fixpoint get_member (k : string) (kvs : list (string * json)) : option json :=
  match kvs with
  | [] => None
  | (k', w) :: rest => if k' =? k then Some w else get_member k rest
  end.

Definition has_key (k : string) (kvs : list (string * json)) : bool :=
  existsb (fun kv => fst kv =? k) kvs.


(** ** The type language of the declarations *)

(** A property of an object type: [name?: type], with the replacement
    named by a [@deprecated use X field instead] doc tag, when it has one. *)
Record member (T : Type) : Type := Member {
  m_name : string;
  m_optional : bool;
  m_type : T;
  m_deprecated : option string
}.
Arguments Member {T} _ _ _ _.
Arguments m_name {T} _.
Arguments m_optional {T} _.
Arguments m_type {T} _.
Arguments m_deprecated {T} _.

(** The pieces of a template literal type such as
    [`${number}-${number}-${number}`]. *)
Inductive tpart : Type :=
| Text (s : string)
| NumberHole.

Inductive ty : Type :=
| TUnknown
| TString
| TNumber
| TBoolean
| TNull
| TUndefined
| TLit (s : string)
| TTemplate (parts : list tpart)
| TUnion (alts : list ty)
| TInter (a b : ty)
| TArray (elem : ty)
| TTuple (elems : list ty)
| TObject (members : list (member ty)) (index : option ty)
| TRef (name : string)
| TPartial (t : ty)
| TOmit (t : ty) (keys : list string).

Set Elimination Schemes.

(** An object type laid out: its properties and its string index
    signature ([[key: string]: T]). *)
Definition shape : Type := (list (member ty) * option ty)%type.

Definition opt (n : string) (t : ty) : member ty := Member n true t None.
Definition req (n : string) (t : ty) : member ty := Member n false t None.
Definition deprecated (instead : string) (m : member ty) : member ty :=
  Member (m_name m) (m_optional m) (m_type m) (Some instead).

Notation "n ?: t" := (opt n t) (at level 60, no associativity).
Notation "n !: t" := (req n t) (at level 60, no associativity).

Definition union (a b : ty) : ty :=
  match a with
  | TUnion l => TUnion (l ++ [b])
  | _ => TUnion [a; b]
  end.
Notation "a <|> b" := (union a b) (at level 50, left associativity).

Fixpoint find_member (k : string) (ms : list (member ty)) : option (member ty) :=
  match ms with
  | [] => None
  | m :: rest => if m_name m =? k then Some m else find_member k rest
  end.

Definition names (ms : list (member ty)) : list string := map m_name ms.

Definition optional (m : member ty) : member ty :=
  Member (m_name m) true (m_type m) (m_deprecated m).

(** *** Utility types of the TypeScript library

    [Record], [Partial], [Pick], [Exclude], [keyof] and [Omit] are not
    declared in the repository; they are the library's
    [type Record<K, T> = { [P in K]: T }],
    [type Partial<T> = { [P in keyof T]?: T[P] }],
    [type Pick<T, K extends keyof T> = { [P in K]: T[P] }],
    [type Exclude<T, U> = T extends U ? never : T] and
    [type Omit<T, K> = Pick<T, Exclude<keyof T, K>>]. *)

(** A key type: a literal name, or all of [string] / [number]. *)
Inductive key : Type :=
| KLit (s : string)
| KString
| KNumber.

(** [keyof T]: with a string index signature it is [string | number],
    which absorbs every literal name; otherwise the declared names. *)
Definition keyof (s : shape) : list key :=
  match snd s with
  | Some _ => [KString; KNumber]
  | None => map KLit (names (fst s))
  end.

(** [Exclude<K, "a" | "b" | ...>]: a literal is dropped when it is one of
    the excluded literals; [string] and [number] extend no literal and stay. *)
Definition Exclude (ks : list key) (drop : list string) : list key :=
  filter (fun k => match k with
                   | KLit s => negb (existsb (String.eqb s) drop)
                   | _ => true
                   end) ks.

(** [Pick<T, K>]: the mapped type over [K].  A literal key keeps the
    property of [T] with its modifiers; [string] yields the index
    signature [[x: string]: T[string]].  ([number] yields a numeric index
    signature, which no JSON object key can tell from the string one.) *)
Definition pick_shape (s : shape) (ks : list key) : shape :=
  (flat_map (fun k => match k with
                      | KLit n => match find_member n (fst s) with
                                  | Some m => [m]
                                  | None => []
                                  end
                      | _ => []
                      end) ks,
   if existsb (fun k => match k with KString => true | _ => false end) ks
   then snd s else None).

Definition omit_shape (drop : list string) (s : shape) : shape :=
  pick_shape s (Exclude (keyof s) drop).

Definition partial_shape (s : shape) : shape := (map optional (fst s), snd s).

Definition Pick (t : ty) (ks : list string) : ty :=
  match t with
  | TObject ms ix => let s := pick_shape (ms, ix) (map KLit ks) in TObject (fst s) (snd s)
  | _ => TUnknown
  end.

Definition Omit (t : ty) (ks : list string) : ty :=
  match t with
  | TObject ms ix => let s := omit_shape ks (ms, ix) in TObject (fst s) (snd s)
  | _ => TOmit t ks
  end.

Definition Partial (t : ty) : ty :=
  match t with
  | TObject ms ix => TObject (map optional ms) ix
  | _ => TPartial t
  end.

(** [Record<K, T>] for [K = string] or a union of literals. *)
Definition Record_ (k : ty) (t : ty) : ty :=
  match k with
  | TString => TObject [] (Some t)
  | TLit s => TObject [req s t] None
  | TUnion ks =>
      TObject (flat_map (fun k => match k with TLit s => [req s t] | _ => [] end) ks) None
  | _ => TObject [] None
  end.

(** [typeof Values[number]] for [const Values = [...] as const]:
    the union of the literals of the array. *)
Definition typeof_number (values : list string) : ty := TUnion (map TLit values).

Definition members_of (t : ty) : list (member ty) :=
  match t with
  | TObject ms _ => ms
  | _ => []
  end.

Definition index_of (t : ty) : option ty :=
  match t with
  | TObject _ ix => ix
  | _ => None
  end.

Definition first_some {A} (a b : option A) : option A :=
  match a with
  | Some _ => a
  | None => b
  end.

(** Properties of [base] that [own] does not redeclare, then [own]. *)
Definition override (base own : list (member ty)) : list (member ty) :=
  filter (fun m => negb (existsb (String.eqb (m_name m)) (names own))) base ++ own.

(** [A & B] on two object types: one object type with the properties of
    both; a property declared by both gets the intersection of its types. *)
Definition intersect (a b : ty) : ty :=
  match a, b with
  | TObject ma ia, TObject mb ib =>
      TObject
        (map (fun m => match find_member (m_name m) mb with
                       | Some m' => Member (m_name m) (m_optional m && m_optional m')
                                           (TInter (m_type m) (m_type m'))
                                           (first_some (m_deprecated m) (m_deprecated m'))
                       | None => m
                       end) ma
         ++ filter (fun m => negb (existsb (String.eqb (m_name m)) (names ma))) mb)
        (first_some ia ib)
  | _, _ => TInter a b
  end.

(** ** Interface declarations

    [interface Name extends B1, B2 { own }].  A base is a declared
    interface or a type expression ([Record<string, unknown>],
    [Omit<AddRequest, "boardId">]).  [d_ancestors] lists the declared
    interfaces reached through the [extends] clauses. *)
Record decl : Type := Decl {
  d_name : string;
  d_ancestors : list string;
  d_type : ty
}.

Inductive base : Type :=
| Named (d : decl)
| Anonymous (t : ty).

Definition base_type (b : base) : ty :=
  match b with
  | Named d => d_type d
  | Anonymous t => t
  end.

Definition base_ancestors (b : base) : list string :=
  match b with
  | Named d => d_name d :: d_ancestors d
  | Anonymous _ => []
  end.

Definition inherited (bases : list base) : ty :=
  fold_left (fun acc b =>
               TObject (override (members_of acc) (members_of (base_type b)))
                       (first_some (index_of acc) (index_of (base_type b))))
            bases (TObject [] None).

Definition interface (name : string) (bases : list base) (own : list (member ty)) : decl :=
  Decl name
       (flat_map base_ancestors bases)
       (TObject (override (members_of (inherited bases)) own)
                (index_of (inherited bases))).

(** An index signature written in the body of a declaration. *)
Definition indexed (t : ty) : base := Anonymous (TObject [] (Some t)).

Definition extends_marker (marker : string) (d : decl) : bool :=
  existsb (String.eqb marker) (d_ancestors d).

Coercion d_type : decl >-> ty.

(** ** Matching a payload against a type

    A payload matches an object type when every required property is
    present, every member that names a declared property has a value of
    the property's type, and every other member is covered by the index
    signature; an object type without an index signature has no place for
    an undeclared member. *)

(** [${number}] in a template literal type.  The type checker takes a
    string [s] for it when [s] is not empty and the number the language
    reads from [s] (its string numeric literal, as unary plus does) is
    finite.  In that reading white space around the literal is dropped
    and nothing left reads as 0; a decimal literal has an optional sign,
    digits with an optional fraction (one digit at least) and an
    optional exponent; a literal after 0x, 0o or 0b is unsigned, in base
    16, 8 or 2; Infinity is not finite, and any other text is not a
    number.  A value is finite when it rounds below 2^1024, which is
    when its magnitude is under 2^1024 - 2^970.  Strings are taken as
    their UTF-8 bytes. *)
Definition white3 (b1 b2 b3 : nat) : bool :=
  ((b1 =? 225) && (b2 =? 154) && (b3 =? 128)
   || (b1 =? 226) && (b2 =? 128) && ((128 <=? b3) && (b3 <=? 138))
   || (b1 =? 226) && (b2 =? 128) && ((b3 =? 168) || (b3 =? 169) || (b3 =? 175))
   || (b1 =? 226) && (b2 =? 129) && (b3 =? 159)
   || (b1 =? 227) && (b2 =? 128) && (b3 =? 128)
   || (b1 =? 239) && (b2 =? 187) && (b3 =? 191))%nat.

(** A string without its leading white space: tab, line feed, vertical
    tab, form feed, carriage return, space, U+00A0, U+1680, U+2000 to
    U+200A, U+2028, U+2029, U+202F, U+205F, U+3000 and U+FEFF. *)
Fixpoint drop_white (s : string) : string :=
  match s with
  | EmptyString => s
  | String c1 r1 =>
      let b1 := nat_of_ascii c1 in
      if ((9 <=? b1) && (b1 <=? 13) || (b1 =? 32))%nat then drop_white r1
      else match r1 with
           | EmptyString => s
           | String c2 r2 =>
               let b2 := nat_of_ascii c2 in
               if ((b1 =? 194) && (b2 =? 160))%nat then drop_white r2
               else match r2 with
                    | EmptyString => s
                    | String c3 r3 =>
                        if white3 b1 b2 (nat_of_ascii c3) then drop_white r3 else s
                    end
           end
  end.

Definition digit_value (c : ascii) : option Z :=
  let n := nat_of_ascii c in
  if ((48 <=? n) && (n <=? 57))%nat then Some (Z.of_nat n - 48)%Z
  else if ((97 <=? n) && (n <=? 102))%nat then Some (Z.of_nat n - 87)%Z
  else if ((65 <=? n) && (n <=? 70))%nat then Some (Z.of_nat n - 55)%Z
  else None.

(** The digits of base [base] that [s] starts with, read after [acc]:
    the value, how many digits were read, and what follows them. *)
Fixpoint digits (base acc : Z) (count : nat) (s : string) : Z * nat * string :=
  match s with
  | EmptyString => (acc, count, s)
  | String c r =>
      match digit_value c with
      | Some d => if (d <? base)%Z then digits base (acc * base + d)%Z (S count) r
                  else (acc, count, s)
      | None => (acc, count, s)
      end
  end.

(** [m * 10^e] rounds to a finite number. *)
Definition finite_scaled (m e : Z) : bool :=
  let bound := (2 ^ 1024 - 2 ^ 970)%Z in
  if (m =? 0)%Z then true
  else if (0 <=? e)%Z then (m * 10 ^ e <? bound)%Z
       else (m <? bound * 10 ^ (- e))%Z.

Definition radix_literal (s : string) : option (Z * string) :=
  match s with
  | String "0" (String x body) =>
      if (Ascii.eqb x "x" || Ascii.eqb x "X")%bool then Some (16%Z, body)
      else if (Ascii.eqb x "o" || Ascii.eqb x "O")%bool then Some (8%Z, body)
      else if (Ascii.eqb x "b" || Ascii.eqb x "B")%bool then Some (2%Z, body)
      else None
  | _ => None
  end.

Definition signed (s : string) : bool * string :=
  match s with
  | String "+" r => (false, r)
  | String "-" r => (true, r)
  | _ => (false, s)
  end.

(** The text, without white space in front, reads as a finite number. *)
Definition reads_finite (s : string) : bool :=
  if s =? "" then true
  else
    match radix_literal s with
    | Some (base, body) =>
        let '(v, n, rest) := digits base 0 0 body in
        negb (n =? 0)%nat && (drop_white rest =? "") && finite_scaled v 0
    | None =>
        let '(whole, n1, r1) := digits 10 0 0 (snd (signed s)) in
        let '(m, n2, r2) :=
          match r1 with
          | String "." r => digits 10 whole 0 r
          | _ => (whole, 0%nat, r1)
          end in
        if (n1 + n2 =? 0)%nat then false
        else
          match r2 with
          | String c r =>
              if (Ascii.eqb c "e" || Ascii.eqb c "E")%bool
              then let '(minus, r') := signed r in
                   let '(ev, n3, r3) := digits 10 0 0 r' in
                   negb (n3 =? 0)%nat && (drop_white r3 =? "")
                   && finite_scaled m ((if minus then - ev else ev) - Z.of_nat n2)
              else (drop_white r2 =? "") && finite_scaled m (- Z.of_nat n2)
          | EmptyString => finite_scaled m (- Z.of_nat n2)
          end
    end.

Definition number_string (s : string) : bool :=
  negb (s =? "") && reads_finite (drop_white s).

(** The longest prefix of [s] without the character [c], and what follows
    the first [c] (when there is one). *)
Fixpoint split_at (c : ascii) (s : string) : string * option string :=
  match s with
  | EmptyString => (EmptyString, None)
  | String d r =>
      if Ascii.eqb c d then (EmptyString, Some r)
      else let '(h, t) := split_at c r in (String d h, t)
  end.

(** Template literal types built from [${number}] holes separated by
    one-character texts, which is what the catalog uses. *)
Fixpoint template_matches (parts : list tpart) (s : string) : bool :=
  match parts with
  | [] => s =? ""
  | [NumberHole] => number_string s
  | NumberHole :: Text (String c EmptyString) :: rest =>
      match split_at c s with
      | (h, Some t) => number_string h && template_matches rest t
      | (_, None) => false
      end
  | _ => false
  end.

Section Matching.

(** The declared interfaces a [TRef] may name. *)
Variable env : string -> option shape.

(** The object type a type expression denotes, when it denotes one. *)
Fixpoint whnf (t : ty) : option shape :=
  match t with
  | TObject ms ix => Some (ms, ix)
  | TRef n => env n
  | TPartial t' => option_map partial_shape (whnf t')
  | TOmit t' ks => option_map (omit_shape ks) (whnf t')
  | _ => None
  end.

Definition required_present (ms : list (member ty)) (kvs : list (string * json)) : bool :=
  forallb (fun m => m_optional m || has_key (m_name m) kvs) ms.

Fixpoint matches (v : json) (t : ty) {struct v} : bool :=
  let object_ok (s : shape) : bool :=
    match v with
    | JObj kvs =>
        required_present (fst s) kvs &&
        (fix each (kvs : list (string * json)) : bool :=
           match kvs with
           | [] => true
           | (k, w) :: rest =>
               match find_member k (fst s) with
               | Some m => matches w (m_type m)
               | None =>
                   match snd s with
                   | Some ti => matches w ti
                   | None => false
                   end
               end && each rest
           end) kvs
    | _ => false
    end in
  (fix alt (t : ty) : bool :=
     match t with
     | TUnknown => true
     | TString => match v with JStr _ => true | _ => false end
     | TNumber => match v with JNum _ => true | _ => false end
     | TBoolean => match v with JBool _ => true | _ => false end
     | TNull => match v with JNull => true | _ => false end
     | TUndefined => false
     | TLit s => match v with JStr s' => s' =? s | _ => false end
     | TTemplate parts => match v with JStr s => template_matches parts s | _ => false end
     | TUnion alts =>
         (fix any (ts : list ty) : bool :=
            match ts with
            | [] => false
            | t' :: rest => alt t' || any rest
            end) alts
     | TInter a b => alt a && alt b
     | TArray e =>
         match v with
         | JArr items =>
             (fix all (l : list json) : bool :=
                match l with
                | [] => true
                | w :: rest => matches w e && all rest
                end) items
         | _ => false
         end
     | TTuple es =>
         match v with
         | JArr items =>
             (fix zip (es : list ty) (l : list json) {struct l} : bool :=
                match es, l with
                | [], [] => true
                | e :: es', w :: l' => matches w e && zip es' l'
                | _, _ => false
                end) es items
         | _ => false
         end
     | TObject ms ix => object_ok (ms, ix)
     | TRef _ | TPartial _ | TOmit _ _ =>
         match whnf t with
         | Some s => object_ok s
         | None => false
         end
     end) t.

(** How one member of a payload is judged against an object type. *)
Definition member_ok (s : shape) (kv : string * json) : bool :=
  match find_member (fst kv) (fst s) with
  | Some m => matches (snd kv) (m_type m)
  | None =>
      match snd s with
      | Some ti => matches (snd kv) ti
      | None => false
      end
  end.

End Matching.

(** ** The catalog

    index.ts: the envelope markers and the shared value-sets. *)

Definition ApiRequest : decl :=
  interface "ApiRequest" [Anonymous (Record_ TString TUnknown)]
    [].

Definition ApiResponse : decl :=
  interface "ApiResponse" [Anonymous (Record_ TString TUnknown)]
    [].

Definition ApiRequestBody : decl :=
  interface "ApiRequestBody" [Anonymous (Record_ TString TUnknown)]
    [].

Definition AggregatesValues : list string :=
  ["class";
   "status";
   "lastStatus";
   "type";
   "listPrice";
   "map";
   "address.area";
   "address.city";
   "address.neighborhood";
   "address.district";
   "address.streetName";
   "address.majorIntersection";
   "address.zip";
   "address.state";
   "address.communityCode";
   "address.streetDirection";
   "permissions.displayPublic";
   "permissions.displayInternetEntireListing";
   "permissions.displayAddressOnInternet";
   "details.propertyType";
   "details.style";
   "detail.numBedrooms";
   "details.numBathrooms";
   "details.businessType";
   "details.businessSubType";
   "details.basement1";
   "details.basement2";
   "details.garage";
   "details.den";
   "details.sewer";
   "details.waterSource";
   "details.heating";
   "details.swimmingPool";
   "details.yearBuilt";
   "details.exteriorConstruction";
   "details.exteriorConstruction2";
   "details.sqft";
   "details.balcony";
   "details.driveway";
   "condominium.locker";
   "condominium.exposure";
   "condominium.ammenities";
   "condominium.pets";
   "condominium.parkingType";
   "condominium.stories";
   "condominium.propertyMgr";
   "condominium.condoCorp";
   "condominium.ensuiteLaundry";
   "nearby.ammenities";
   "office.brokerageName";
   "photoCount"].

Definition Aggregates : ty := (typeof_number AggregatesValues).

Definition DateFormat : ty := (TTemplate [NumberHole; Text "-"; NumberHole; Text "-"; NumberHole]).

Definition YesNoValues : list string :=
  ["Y";
   "N"].

Definition YesNo : ty := (typeof_number YesNoValues).

Definition ClassValues : list string :=
  ["condo";
   "residential";
   "commercial"].

Definition Class : ty := (typeof_number ClassValues).

Definition LastStatusValues : list string :=
  ["Sus";
   "Exp";
   "Sld";
   "Ter";
   "Dft";
   "Lsd";
   "Sc";
   "Sce";
   "Lc";
   "Pc";
   "Ext";
   "New"].

Definition LastStatus : ty := (typeof_number LastStatusValues).

Definition OperatorValues : list string :=
  ["AND";
   "OR"].

Definition Operator : ty := (typeof_number OperatorValues).

Definition SimilarSortByValues : list string :=
  ["updatedOnDesc";
   "updatedOnAsc";
   "createdOnAsc";
   "createdOnDesc"].

Definition SimilarSortBy : ty := (typeof_number SimilarSortByValues).

Definition SortByValues : list string :=
  ["createdOnDesc";
   "updatedOnDesc";
   "createdOnAsc";
   "distanceAsc";
   "distanceDesc";
   "updatedOnAsc";
   "soldDateAsc";
   "soldDateDesc";
   "soldPriceAsc";
   "soldPriceDesc";
   "sqftAsc";
   "sqftDesc";
   "listPriceAsc";
   "listPriceDesc";
   "bedsAsc";
   "bedsDesc";
   "bathsDesc";
   "bathsAsc";
   "yearBuiltDesc";
   "yearBuiltAsc";
   "random";
   "statusAscListDateAsc";
   "statusAscListDateDesc";
   "statusAscListPriceAsc";
   "statusAscListPriceDesc";
   "repliersUpdatedOnAsc";
   "repliersUpdatedOnDesc"].

Definition SortBy : ty := (typeof_number SortByValues).

Definition StatisticsValues : list string :=
  ["avg-daysOnMarket";
   "sum-daysOnMarket";
   "min-daysOnMarket";
   "max-daysOnMarket";
   "avg-listPrice";
   "sum-listPrice";
   "min-listPrice";
   "max-listPrice";
   "avg-soldPrice";
   "sum-soldPrice";
   "min-soldPrice";
   "max-soldPrice";
   "cnt-new";
   "cnt-closed";
   "cnt-available";
   "med-listPrice";
   "med-soldPrice";
   "med-daysOnMarket";
   "sd-listPrice";
   "sd-soldPrice";
   "sd-daysOnMarket";
   "avg-priceSqft";
   "grp-mth";
   "grp-yr";
   "grp-day";
   "avg-tax";
   "med-tax"].

Definition Statistics : ty := (typeof_number StatisticsValues).

Definition StatusValues : list string :=
  ["A";
   "U"].

Definition Status : ty := (typeof_number StatusValues).

Definition TypeValues : list string :=
  ["sale";
   "lease"].

Definition Type_ : ty := (typeof_number TypeValues).

(** *** listings.ts *)

Module Listings.

Definition Room : decl :=
  interface "Listings.Room" []
    ["description" ?: TString;
     "features" ?: (TString <|> TNull);
     "features2" ?: (TString <|> TNull);
     "features3" ?: (TString <|> TNull);
     "length" ?: (TString <|> TNull);
     "width" ?: (TString <|> TNull);
     "level" ?: (TString <|> TNull)].

Definition Bathroom : decl :=
  interface "Listings.Bathroom" []
    ["pieces" ?: TString;
     "level" ?: TString;
     "count" ?: TString].

Definition Timestamp : decl :=
  interface "Listings.Timestamp" []
    ["idxUpdated" ?: (TString <|> TNull);
     "listingUpdated" ?: (TString <|> TNull);
     "photosUpdated" ?: (TString <|> TNull);
     "conditionalExpiryDate" ?: (TString <|> TNull);
     "terminatedDate" ?: (TString <|> TNull);
     "suspendedDate" ?: (TString <|> TNull);
     "listingEntryDate" ?: (TString <|> TNull);
     "closedDate" ?: (TString <|> TNull);
     "unavailableDate" ?: (TString <|> TNull);
     "expiryDate" ?: (TString <|> TNull);
     "extensionEntryDate" ?: (TString <|> TNull);
     "possessionDate" ?: (TString <|> TNull);
     "repliersUpdatedOn" ?: TString].

Definition Condominium : decl :=
  interface "Listings.Condominium" []
    ["ammenities" ?: (TArray TString);
     "buildingInsurance" ?: (TString <|> TNull);
     "condoCorp" ?: (TString <|> TNull);
     "condoCorpNum" ?: (TString <|> TNull);
     "exposure" ?: (TString <|> TNull);
     "lockerNumber" ?: TString;
     "locker" ?: (TString <|> TNull);
     "parkingType" ?: (TString <|> TNull);
     "pets" ?: (TString <|> TNull);
     "propertyMgr" ?: (TString <|> TNull);
     "stories" ?: (TString <|> TNull);
     "fees" ?: (TObject
       ["cableIncl" ?: (YesNo <|> TString <|> TNull);
        "heatIncl" ?: (YesNo <|> TString <|> TNull);
        "hydroIncl" ?: (YesNo <|> TString <|> TNull);
        "maintenance" ?: (TString <|> TNull);
        "parkingIncl" ?: (YesNo <|> TString <|> TNull);
        "taxesIncl" ?: (YesNo <|> TString <|> TNull);
        "waterIncl" ?: (YesNo <|> TString <|> TNull)] None);
     "lockerUnitNumber" ?: (TString <|> TNull);
     "ensuiteLaundry" ?: (YesNo <|> TString <|> TNull);
     "sharesPercentage" ?: (TString <|> TNull);
     "lockerLevel" ?: (TString <|> TNull);
     "unitNumber" ?: (TString <|> TNull)].

Definition OpenHouse : decl :=
  interface "Listings.OpenHouse" []
    ["date" ?: TString;
     "startTime" ?: TString;
     "endTime" ?: TString;
     "type" ?: (TString <|> TNull);
     "status" ?: (TString <|> TNull);
     "TZ" ?: (TString <|> TNull)].

Definition Details : decl :=
  interface "Listings.Details" [Anonymous (Record_ TString TUnknown)]
    ["airConditioning" ?: (TString <|> TNull);
     "basement1" ?: (TString <|> TNull);
     "basement2" ?: (TString <|> TNull);
     "centralVac" ?: (TString <|> TNull);
     "den" ?: (YesNo <|> TNull);
     "description" ?: (TString <|> TNull);
     "elevator" ?: (TString <|> TNull);
     "exteriorConstruction1" ?: (TString <|> TNull);
     "exteriorConstruction2" ?: (TString <|> TNull);
     "extras" ?: (TString <|> TNull);
     "furnished" ?: (TString <|> TNull);
     "garage" ?: (TString <|> TNull);
     "heating" ?: (TString <|> TNull);
     "numBathrooms" ?: (TString <|> TNull);
     "numBathroomsPlus" ?: (TString <|> TNull);
     "numBedrooms" ?: (TString <|> TNull);
     "numBedroomsPlus" ?: (TString <|> TNull);
     "numFireplaces" ?: (YesNo <|> TString <|> TNull);
     "numGarageSpaces" ?: (TString <|> TNull);
     "numParkingSpaces" ?: (TString <|> TNull);
     "numRooms" ?: (TString <|> TNull);
     "numRoomsPlus" ?: (TString <|> TNull);
     "patio" ?: (TString <|> TNull);
     "propertyType" ?: (TString <|> TNull);
     "sqft" ?: (TString <|> TNull);
     "style" ?: (TString <|> TNull);
     "swimmingPool" ?: (TString <|> TNull);
     "virtualTourUrl" ?: (TString <|> TNull);
     "yearBuilt" ?: (TString <|> TNull);
     "landAccessType" ?: (TString <|> TNull);
     "landSewer" ?: (TString <|> TNull);
     "viewType" ?: (TString <|> TNull);
     "zoningDescription" ?: (TString <|> TNull);
     "analyticsClick" ?: (TString <|> TNull);
     "moreInformationLink" ?: (TString <|> TNull);
     "alternateURLVideoLink" ?: (TString <|> TNull);
     "flooringType" ?: (TString <|> TNull);
     "foundationType" ?: (TString <|> TNull);
     "landscapeFeatures" ?: (TString <|> TNull);
     "fireProtection" ?: (TString <|> TNull);
     "roofMaterial" ?: (TString <|> TNull);
     "farmType" ?: (TString <|> TNull);
     "zoningType" ?: (TString <|> TNull);
     "businessType" ?: (TString <|> TNull);
     "businessSubType" ?: (TString <|> TNull);
     "landDisposition" ?: (TString <|> TNull);
     "storageType" ?: (TString <|> TNull);
     "constructionStyleSplitLevel" ?: (TString <|> TNull);
     "constructionStatus" ?: (TString <|> TNull);
     "loadingType" ?: (TString <|> TNull);
     "ceilingType" ?: (TString <|> TNull);
     "liveStreamEventURL" ?: (TString <|> TNull);
     "energuideRating" ?: (TString <|> TNull);
     "amperage" ?: (TString <|> TNull);
     "sewer" ?: (TString <|> TNull);
     "familyRoom" ?: (YesNo <|> TNull);
     "zoning" ?: (TString <|> TNull);
     "driveway" ?: (TString <|> TNull);
     "leaseTerms" ?: (TString <|> TNull);
     "centralAirConditioning" ?: (TString <|> TNull);
     "certificationLevel" ?: (TString <|> TNull);
     "energyCertification" ?: (TString <|> TNull);
     "parkCostMonthly" ?: (TString <|> TNull);
     "commonElementsIncluded" ?: (TString <|> TNull);
     "greenPropertyInformationStatement" ?: (TString <|> TNull);
     "handicappedEquipped" ?: (TString <|> TNull);
     "laundryLevel" ?: (TString <|> TNull);
     "balcony" ?: (TString <|> TNull);
     "numKitchens" ?: (TString <|> TNull);
     "numKitchensPlus" ?: (TString <|> TNull);
     "sqftRange" ?: (TString <|> TNull);
     "numDrivewaySpaces" ?: (TString <|> TNull);
     "HOAFee" ?: (TString <|> TNull);
     "HOAFee2" ?: (TString <|> TNull);
     "HOAFee3" ?: (TString <|> TNull);
     "waterSource" ?: (TString <|> TNull);
     "livingAreaMeasurement" ?: (TString <|> TNull);
     "waterfront" ?: (TString <|> TNull);
     "bathrooms" ?: (Record_ TString Bathroom);
     "numBathroomsHalf" ?: (TString <|> TNull)].

Definition ListingClass : ty := (TLit "ResidentialProperty").

Definition StreetDirectionValues : list string :=
  ["n";
   "e";
   "w";
   "s";
   ""].

Definition StreetDirection : ty := (typeof_number StreetDirectionValues).

Definition Address : decl :=
  interface "Listings.Address" []
    ["area" ?: (TString <|> TNull);
     "city" ?: (TString <|> TNull);
     "country" ?: (TString <|> TNull);
     "district" ?: (TString <|> TNull);
     "majorIntersection" ?: (TString <|> TNull);
     "neighborhood" ?: (TString <|> TNull);
     "streetDirection" ?: (StreetDirection <|> TNull);
     "streetName" ?: (TString <|> TNull);
     "streetNumber" ?: (TString <|> TNull);
     "streetSuffix" ?: (TString <|> TNull);
     "unitNumber" ?: (TString <|> TNull);
     "zip" ?: (TString <|> TNull);
     "state" ?: (TString <|> TNull);
     "communityCode" ?: (TString <|> TNull);
     "streetDirectionPrefix" ?: (TString <|> TNull)].

Definition Map : decl :=
  interface "Listings.Map" []
    ["latitude" !: TString;
     "longitude" !: TString;
     "point" !: TString].

(** All fields of the Listing interface are optional, and so are the
    fields of the objects nested in it: the [fields] parameter of
    SearchRequest selects which ones the endpoint returns, and some boards
    lack some fields. *)
Definition Listing : decl :=
  interface "Listings.Listing" [Anonymous (Record_ TString TUnknown)]
    ["mlsNumber" ?: TString;
     "resource" ?: TString;
     "status" ?: Status;
     "class" ?: Class;
     "type" ?: Type_;
     "listPrice" ?: TString;
     "listDate" ?: TString;
     "lastStatus" ?: LastStatus;
     "soldPrice" ?: (TString <|> TNull);
     "soldDate" ?: (TString <|> TNull);
     "originalPrice" ?: TString;
     "assignment" ?: (TString <|> TNull);
     "address" ?: Address;
     "map" ?: Map;
     "permissions" ?: (TObject
       ["displayAddressOnInternet" ?: YesNo;
        "displayPublic" ?: YesNo;
        "displayInternetEntireListing" ?: YesNo] None);
     "images" ?: (TArray TString);
     "photoCount" ?: TNumber;
     "details" ?: Details;
     "daysOnMarket" ?: TString;
     "occupancy" ?: (TString <|> TNull);
     "updatedOn" ?: (TString <|> TNull);
     "condominium" ?: Condominium;
     "coopCompensation" ?: (TString <|> TNull);
     "lot" ?: (TObject
       ["acres" ?: (TString <|> TNull);
        "depth" ?: (TString <|> TNull);
        "irregular" ?: (TString <|> TNull);
        "legalDescription" ?: (TString <|> TNull);
        "measurement" ?: (TString <|> TNull);
        "width" ?: (TString <|> TNull);
        "size" ?: (TString <|> TNull);
        "source" ?: (TString <|> TNull);
        "dimensionsSource" ?: (TString <|> TNull);
        "dimensions" ?: (TString <|> TNull);
        "squareFeet" ?: (TString <|> TNull);
        "features" ?: (TString <|> TNull);
        "taxLot" ?: (TString <|> TNull)] None);
     "nearby" ?: (TObject ["ammenities" ?: (TArray TString)] None);
     "office" ?: (TObject ["brokerageName" ?: TString] None);
     "openHouse" ?: (Record_ TString OpenHouse);
     "rooms" ?: (Record_ TString Room);
     "taxes" ?: (TObject
       ["annualAmount" ?: (TString <|> TNull);
        "assessmentYear" ?: (TString <|> TNull)] None);
     "timestamps" ?: Timestamp;
     "agents" ?: (TArray (TObject
       ["agentId" ?: (TString <|> TNull);
        "boardAgentId" ?: TString;
        "officeId" ?: TString;
        "updatedOn" ?: (TString <|> TNull);
        "name" ?: (TString <|> TNull);
        "board" ?: (TString <|> TNull);
        "boardOfficeId" ?: (TString <|> TNull);
        "position" ?: (TString <|> TNull);
        "email" ?: (TString <|> TNull);
        "phones" ?: (TArray TString);
        "social" ?: (TArray TString);
        "website" ?: (TString <|> TNull);
        "photo" ?: (TObject
          ["small" ?: (TString <|> TNull);
           "large" ?: (TString <|> TNull);
           "updatedOn" ?: (TString <|> TNull)] None);
        "brokerage" ?: (TObject
          ["name" ?: TString;
           "address" ?: (TObject
             ["address1" ?: (TString <|> TNull);
              "address2" ?: (TString <|> TNull);
              "city" ?: (TString <|> TNull);
              "state" ?: (TString <|> TNull);
              "postal" ?: (TString <|> TNull);
              "country" ?: (TString <|> TNull)] None)] None)] (Some TUnknown)));
     "duplicates" ?: (TArray TString);
     "boardId" ?: TNumber;
     "comparables" ?: (TArray (Partial (TRef "Listings.Listing")));
     "history" ?: (TArray (Partial (TRef "Listings.Listing")))].

(** [RollingPeriodName<Days extends `${number}` = "30" | "90" | "365">]:
    the template [`grp-${Days}-days`] over the union [Days], and three
    fixed names. *)
Definition RollingPeriodName_ (Days : list string) : ty :=
  TUnion (map (fun d => TLit ("grp-" ++ d ++ "-days")) Days
          ++ [TLit "grp-day"; TLit "grp-mth"; TLit "grp-yr"]).

Definition RollingPeriodName : ty := RollingPeriodName_ ["30"; "90"; "365"].

Definition RollingPeriod : decl :=
  interface "Listings.RollingPeriod" [indexed (TObject
       ["count" !: TNumber;
        "avg" ?: TNumber;
        "sum" ?: TNumber;
        "med" ?: TNumber;
        "min" ?: TNumber;
        "max" ?: TNumber;
        "sd" ?: TNumber] None)]
    [].

Definition ImageSearchItemBase : decl :=
  interface "Listings.ImageSearchItemBase" []
    ["type" !: TString;
     "boost" !: TNumber].

Definition ImageSearchValue : decl :=
  interface "Listings.ImageSearchValue" [Named ImageSearchItemBase]
    ["type" !: (TLit "text");
     "value" !: TString].

Definition ImageSearchUrl : decl :=
  interface "Listings.ImageSearchUrl" [Named ImageSearchItemBase]
    ["type" !: (TLit "image");
     "url" !: TString].

Definition ImageSearchItem : ty := (ImageSearchValue <|> ImageSearchUrl).

Definition CoverImageValues : list string :=
  ["kitchen";
   "powder room";
   "ensuite";
   "family room";
   "exterior front";
   "backyard";
   "staircase";
   "primary bedroom";
   "laundry room";
   "office";
   "garage"].

Definition CoverImage : ty := (typeof_number CoverImageValues).

Definition SearchRequest : decl :=
  interface "Listings.SearchRequest" [Named ApiRequest]
    ["agent" ?: (TArray TString);
     "aggregates" ?: (TArray Aggregates);
     "aggregateStatistics" ?: TBoolean;
     "amenities" ?: (TArray TString);
     "area" ?: TString;
     "balcony" ?: (TArray TString);
     "basement" ?: (TArray TString);
     "boardId" ?: (TArray TNumber);
     "brokerage" ?: TString;
     "businessSubType" ?: (TArray TString);
     "businessType" ?: (TArray TString);
     "city" ?: (TArray TString);
     "class" ?: (TArray Class);
     "cluster" ?: TBoolean;
     "clusterFields" ?: TString;
     "clusterLimit" ?: TNumber;
     "clusterPrecision" ?: TNumber;
     "clusterStatistics" ?: TBoolean;
     "coverImage" ?: CoverImage;
     "den" ?: TString;
     "displayAddressOnInternet" ?: YesNo;
     "displayInternetEntireListing" ?: YesNo;
     "displayPublic" ?: YesNo;
     "district" ?: (TArray TNumber);
     "driveway" ?: (TArray TString);
     "exteriorConstruction" ?: (TArray TString);
     "fields" ?: TString;
     "garage" ?: (TArray TString);
     "hasAgents" ?: TBoolean;
     "hasImages" ?: TBoolean;
     "heating" ?: (TArray TString);
     "lastStatus" ?: (TArray LastStatus);
     "lat" ?: TString;
     "listDate" ?: DateFormat;
     "listings" ?: TBoolean;
     "locker" ?: (TArray TString);
     "long" ?: TString;
     "map" ?: (TArray (TArray (TTuple [TNumber; TNumber])));
     "mapOperator" ?: Operator;
     "maxBaths" ?: TNumber;
     deprecated "maxBedrooms" ("maxBeds" ?: TNumber);
     "maxBedrooms" ?: TNumber;
     deprecated "maxBedroomsPlus" ("maxBedsPlus" ?: TNumber);
     "maxBedroomsPlus" ?: TNumber;
     "maxBedroomsTotal" ?: TNumber;
     "maxKitchens" ?: TNumber;
     "maxListDate" ?: DateFormat;
     "maxMaintenanceFee" ?: TNumber;
     "maxOpenHouseDate" ?: DateFormat;
     "maxPrice" ?: TNumber;
     "maxRepliersUpdatedOn" ?: DateFormat;
     "maxSoldDate" ?: DateFormat;
     "maxSoldPrice" ?: TNumber;
     "maxStreetNumber" ?: TNumber;
     "maxSqft" ?: TNumber;
     "maxTaxes" ?: TNumber;
     "maxUnavailableDate" ?: DateFormat;
     "maxUpdatedOn" ?: DateFormat;
     "maxYearBuilt" ?: TNumber;
     "minBaths" ?: TNumber;
     deprecated "minBedrooms" ("minBeds" ?: TNumber);
     "minBedrooms" ?: TNumber;
     deprecated "minBedroomsPlus" ("minBedsPlus" ?: TNumber);
     "minBedroomsPlus" ?: TNumber;
     "minBedroomsTotal" ?: TNumber;
     "minGarageSpaces" ?: TNumber;
     "minKitchens" ?: TNumber;
     "minListDate" ?: DateFormat;
     "minOpenHouseDate" ?: DateFormat;
     "minParkingSpaces" ?: TNumber;
     "minPrice" ?: TNumber;
     "minRepliersUpdatedOn" ?: DateFormat;
     "minSoldDate" ?: DateFormat;
     "minSoldPrice" ?: TString;
     "minSqft" ?: TNumber;
     "minStreetNumber" ?: TNumber;
     "minUnavailableDate" ?: DateFormat;
     "minUpdatedOn" ?: DateFormat;
     "minYearBuilt" ?: DateFormat;
     "mlsNumber" ?: (TArray TString);
     "neighborhood" ?: (TArray TString);
     "officeId" ?: TString;
     "operator" ?: Operator;
     "pageNum" ?: TNumber;
     "propertyType" ?: (TArray TString);
     "radius" ?: TNumber;
     "resultsPerPage" ?: TNumber;
     "search" ?: TString;
     "searchFields" ?: TString;
     "sortBy" ?: SortBy;
     "sqft" ?: (TArray TString);
     "statistics" ?: TString;
     "status" ?: (TArray Status);
     "streetDirection" ?: (TArray StreetDirection);
     "streetName" ?: TString;
     "streetNumber" ?: TString;
     "streetSuffix" ?: TString;
     "style" ?: (TArray TString);
     "swimmingPool" ?: (TArray TString);
     "type" ?: (TArray Type_);
     "unitNumber" ?: (TArray TString);
     "updatedOn" ?: DateFormat;
     "waterSource" ?: (TArray TString);
     "repliersUpdatedOn" ?: TString;
     "sewer" ?: (TArray TString);
     "state" ?: TString;
     "waterfront" ?: YesNo;
     "yearBuilt" ?: (TArray TString);
     "zip" ?: TString;
     "zoning" ?: TString;
     "body" ?: (TObject ["imageSearchItems" ?: (TArray ImageSearchItem)] None)].

Definition BaseStat : decl :=
  interface "Listings.BaseStat" []
    ["avg" ?: TNumber;
     "min" ?: TNumber;
     "max" ?: TNumber;
     "med" ?: TNumber;
     "sd" ?: TNumber;
     "sum" ?: TNumber;
     "mth" ?: (Record_ TString (TRef "Listings.RangeStat"));
     "yr" ?: (Record_ TString (TRef "Listings.RangeStat"))].

Definition RangeStat : ty := (Omit (intersect BaseStat (TObject ["count" !: TNumber] None)) ["mth"; "yr"]).

Definition SearchResponse : decl :=
  interface "Listings.SearchResponse" [Named ApiResponse]
    ["page" !: TNumber;
     "numPages" !: TNumber;
     "pageSize" !: TNumber;
     "count" !: TNumber;
     "listings" !: (TArray Listing);
     "statistics" !: (TObject
       ["available" ?: (TObject
          ["count" !: TNumber;
           "mth" !: (Record_ TString (TObject ["count" !: TNumber] None));
           "yr" !: (Record_ TString (TObject ["count" !: TNumber] None))] None);
        "new" ?: (TObject
          ["count" !: TNumber;
           "mth" !: (Record_ TString (TObject ["count" !: TNumber] None));
           "yr" !: (Record_ TString (TObject ["count" !: TNumber] None))] None);
        "closed" ?: (TObject
          ["count" !: TNumber;
           "mth" !: (Record_ TString (TObject ["count" !: TNumber] None));
           "yr" !: (Record_ TString (TObject ["count" !: TNumber] None))] None);
        "soldPrice" ?: (intersect (Record_ RollingPeriodName RollingPeriod) BaseStat);
        "listPrice" ?: (intersect (Record_ RollingPeriodName RollingPeriod) BaseStat);
        "daysOnMarket" ?: (intersect (Record_ RollingPeriodName RollingPeriod) BaseStat);
        "sqft" ?: (TObject
          ["avgPriceLow" !: TNumber;
           "avgPriceHigh" !: TNumber;
           "mth" ?: (Record_ TString (TObject
             ["avgPriceLow" !: TNumber;
              "avgPriceHigh" !: TNumber] None))] None)] None)].

Definition SimilarRequest : decl :=
  interface "Listings.SimilarRequest" [Named ApiRequest]
    ["boardId" ?: (TArray TNumber);
     "listPriceRange" ?: TNumber;
     "radius" ?: TNumber;
     "sortBy" ?: SimilarSortBy;
     "propertyId" !: TString;
     "fields" ?: TString].

Definition SimilarResponse : decl :=
  interface "Listings.SimilarResponse" [Named ApiResponse]
    [].

Definition ListingRequest : decl :=
  interface "Listings.ListingRequest" [Named ApiRequest]
    ["mlsNumber" ?: TString;
     "boardId" ?: TNumber;
     "fields" ?: TString].

Definition ListingResponse : decl :=
  interface "Listings.ListingResponse" [Named ApiResponse; Named Listing]
    [].

Definition LocationsRequest : decl :=
  interface "Listings.LocationsRequest" [Named ApiRequest]
    ["area" ?: TString;
     "city" ?: TString;
     "neighborhood" ?: TString;
     "class" !: (TArray Class);
     "boardId" ?: TNumber;
     "search" ?: TString].

Definition Location : decl :=
  interface "Listings.Location" []
    ["lat" !: TNumber;
     "lng" !: TNumber].

Definition LocationCoordinates : ty := ((TArray (TArray (TTuple [TNumber; TNumber]))) <|> TNull).

Definition Neighborhood : decl :=
  interface "Listings.Neighborhood" []
    ["name" !: TString;
     "activeCount" !: TNumber;
     "location" !: Location;
     "coordinates" !: (LocationCoordinates <|> TNull)].

Definition City : decl :=
  interface "Listings.City" []
    ["name" !: TString;
     "activeCount" !: TNumber;
     "location" !: Location;
     "coordinates" !: (LocationCoordinates <|> TNull);
     "state" !: TString;
     "neighborhoods" !: (TArray Neighborhood)].

Definition Area : decl :=
  interface "Listings.Area" []
    ["name" !: TString;
     "cities" !: (TArray City)].

Definition ClassWithAreas (Name : ty) : decl :=
  interface "Listings.ClassWithAreas" []
    ["name" !: Name;
     "areas" !: (TArray Area)].

Definition LocationsResponse : decl :=
  interface "Listings.LocationsResponse" [Named ApiResponse]
    ["boards" !: (TTuple [(TObject
       ["boardId" !: TNumber;
        "name" !: TString;
        "updatedOn" !: TString;
        "classes" !: (TTuple [(ClassWithAreas (TLit "condo") : ty); (ClassWithAreas (TLit "residential") : ty); (ClassWithAreas (TLit "commercial") : ty)])] None)])].

Definition NlpRequest : decl :=
  interface "Listings.NlpRequest" [Named ApiRequest]
    [].

Definition NlpResponse : decl :=
  interface "Listings.NlpResponse" [Named ApiResponse]
    ["request" !: (TObject
       ["url" ?: TString;
        "params" ?: (Record_ TString TString);
        "body" !: (Record_ TString TUnknown);
        "summary" !: TString] None);
     "nlpId" !: TString].

End Listings.

(** *** estimate.ts *)

Module Estimate.

Definition Estimate : decl :=
  interface "Estimate.Estimate" []
    ["estimateId" !: TNumber;
     "clientId" ?: TNumber;
     "createdOn" !: TString;
     "updatedOn" !: (TString <|> TNull);
     "estimate" !: TNumber;
     "estimateHigh" !: TNumber;
     "estimateLow" !: TNumber;
     "confidence" !: TNumber;
     "payload" !: (TObject
       ["address" !: (TObject
          ["city" !: TString;
           "streetName" !: TString;
           "streetNumber" !: TString;
           "streetSuffix" !: TString;
           "zip" !: TString] None);
        "details" !: (Record_ TString TUnknown);
        "taxes" !: (TObject ["annualAmount" !: TNumber] None);
        "map" !: (TObject
          ["latitude" !: TNumber;
           "longitude" !: TNumber] None);
        "condominium" !: (Record_ TString TUnknown);
        "lot" !: (TObject
          ["acres" !: TString;
           "depth" !: TString;
           "width" !: TString] None)] (Some TUnknown));
     "history" ?: (TObject ["mth" !: (Record_ TString (TObject ["value" !: TNumber] None))] None);
     "sendEmailMonthly" ?: TBoolean].

Definition AddCondominium : decl :=
  interface "Estimate.AddCondominium" []
    ["ammenities" ?: (TArray TString);
     "exposure" ?: TString;
     "fees" ?: (TObject
       ["cableIncl" ?: YesNo;
        "heatIncl" ?: YesNo;
        "hydroIncl" ?: YesNo;
        "maintenance" ?: TNumber;
        "parkingIncl" ?: YesNo;
        "taxesIncl" ?: YesNo;
        "waterIncl" ?: YesNo] None);
     "parkingType" ?: TString;
     "pets" ?: ((TLit "N") <|> (TLit "Restrict"));
     "stories" ?: TNumber].

Definition AddRequest : decl :=
  interface "Estimate.AddRequest" [Named ApiRequest]
    ["clientId" ?: TNumber;
     "boardId" ?: TNumber;
     "address" ?: (TObject
       ["city" !: TString;
        "streetName" !: TString;
        "streetNumber" !: TString;
        "streetSuffix" !: TString;
        "unitNumber" ?: TString;
        "zip" !: TString] None);
     "condominium" ?: AddCondominium;
     "details" ?: (TObject
       ["basement1" ?: TString;
        "basement2" ?: TString;
        "driveway" ?: TString;
        "exteriorConstruction1" ?: TString;
        "exteriorConstruction2" ?: TString;
        "extras" !: TString;
        "garage" ?: TString;
        "heating" ?: TString;
        "numBathrooms" !: TNumber;
        "numBathroomsPlus" ?: TNumber;
        "numBedrooms" !: TNumber;
        "numBedroomsPlus" ?: TNumber;
        "numFireplaces" ?: YesNo;
        "numGarageSpaces" ?: TNumber;
        "numParkingSpaces" ?: TNumber;
        "propertyType" !: TString;
        "sqft" !: TNumber;
        "style" !: TString;
        "swimmingPool" ?: TString;
        "yearBuilt" ?: TString] None);
     "lot" ?: (TObject
       ["acres" ?: TString;
        "depth" ?: TNumber;
        "width" ?: TNumber] None);
     "sendEmailNow" ?: TBoolean;
     "sendEmailMonthly" ?: TBoolean;
     "taxes" ?: (TObject ["annualAmount" !: TNumber] None)].

Definition AddResponse : decl :=
  interface "Estimate.AddResponse" [Named ApiResponse]
    ["estimate" !: TNumber;
     "estimateLow" !: TNumber;
     "estimateHigh" !: TNumber;
     "confidence" !: TNumber;
     "request" ?: AddRequest;
     "payload" ?: AddRequest;
     "history" ?: (TObject ["mth" !: (Record_ TString (TObject ["value" !: TNumber] None))] None)].

Definition GetRequest : decl :=
  interface "Estimate.GetRequest" [Named ApiRequest]
    ["clientId" ?: TNumber;
     "estimateId" ?: TNumber;
     "pageNum" ?: TNumber;
     "resultsPerPage" ?: TNumber].

Definition GetResponse : decl :=
  interface "Estimate.GetResponse" [Named ApiRequest]
    ["page" !: TNumber;
     "numPages" !: TNumber;
     "pageSize" !: TNumber;
     "count" !: TNumber;
     "estimates" !: (TArray Estimate)].

Definition DeleteRequest : decl :=
  interface "Estimate.DeleteRequest" [Named ApiRequest]
    ["estimateId" !: TNumber].

Definition DeleteResponse : decl :=
  interface "Estimate.DeleteResponse" [Named ApiRequest]
    ["estimateId" !: TNumber].

Definition PatchRequest : decl :=
  interface "Estimate.PatchRequest" [Anonymous (Omit AddRequest ["boardId"])]
    ["estimateId" !: TNumber].

Definition PatchResponse : decl :=
  interface "Estimate.PatchResponse" [Named GetResponse]
    [].

End Estimate.

(** *** clients.ts *)

Module Clients.

Definition Client : decl :=
  interface "Clients.Client" []
    ["clientId" !: TNumber;
     "agentId" !: TNumber;
     "fname" !: TString;
     "lname" !: TString;
     "phone" !: TString;
     "email" !: TString;
     "proxyEmail" !: TString;
     "status" !: TBoolean;
     "lastActivity" !: (TNull <|> TUnknown);
     "tags" !: TString;
     "preferences" !: (TObject
       ["email" !: TBoolean;
        "sms" !: TBoolean;
        "unsubscribe" !: TBoolean;
        "whatsapp" !: TBoolean] None);
     "expiryDate" !: (TNull <|> TUnknown);
     "searches" ?: (intersect (Omit (TRef "Searches.CreateResponse") ["class"]) (TArray (TObject ["classes" ?: (TArray Class)] None)));
     "createdOn" !: TString;
     "estimates" ?: (TArray Estimate.Estimate);
     "externalId" !: (TString <|> TNull)].

Definition CreateRequest : decl :=
  interface "Clients.CreateRequest" [Named ApiRequest]
    ["agentId" ?: TNumber;
     "clientId" ?: TNumber;
     "email" ?: TString;
     "fname" ?: TString;
     "lname" ?: TString;
     "keywords" ?: TString;
     "phone" ?: TNumber;
     "status" ?: TBoolean;
     "conditions" ?: ((TLit "EXACT") <|> (TLit "CONTAINS"));
     "operator" ?: ((TLit "AND") <|> (TLit "OR"));
     "pageNum" ?: TNumber;
     "resultsPerPage" ?: TNumber;
     "tags" ?: (TArray TString);
     "showSavedSearches" ?: TBoolean;
     "externalId" ?: TString].

Definition CreateResponse : decl :=
  interface "Clients.CreateResponse" [Named ApiResponse; Named Client]
    [].

Definition UpdateRequest : decl :=
  interface "Clients.UpdateRequest" [Named CreateRequest; Named ApiRequest]
    ["clientId" !: TNumber].

Definition UpdateResponse : decl :=
  interface "Clients.UpdateResponse" [Named ApiResponse; Named Client]
    [].

Definition DeleteResponse : decl :=
  interface "Clients.DeleteResponse" [Named ApiResponse]
    [].

Definition GetResponse : decl :=
  interface "Clients.GetResponse" [Named ApiResponse; Named Client]
    [].

Definition FilterRequest : decl :=
  interface "Clients.FilterRequest" [Named ApiRequest]
    ["agentId" ?: TNumber;
     "clientId" ?: TNumber;
     "email" !: (TString <|> TUndefined);
     "fname" ?: TString;
     "keywords" ?: TString;
     "lname" ?: TString;
     "phone" ?: (TString <|> TUndefined);
     "status" ?: TBoolean;
     "condition" ?: ((TLit "EXACT") <|> (TLit "CONTAINS"));
     "operator" ?: Operator;
     "pageNum" ?: TNumber;
     "resultsPerPage" ?: TNumber;
     "tags" ?: TString].

Definition FilterResponse : decl :=
  interface "Clients.FilterResponse" [Named ApiResponse]
    ["page" !: TNumber;
     "numPages" !: TNumber;
     "pageSize" !: TNumber;
     "count" !: TNumber;
     "clients" !: (TArray Client)].

Definition GetTagsResponse : decl :=
  interface "Clients.GetTagsResponse" [Named ApiResponse]
    [].

Definition RenameTagRequest : decl :=
  interface "Clients.RenameTagRequest" [Named ApiRequest]
    ["tag" !: TString;
     "label" !: TString].

Definition RenameTagResponse : decl :=
  interface "Clients.RenameTagResponse" [Named ApiResponse]
    [].

End Clients.

(** *** searches.ts *)

Module Searches.

Definition CreateRequest : decl :=
  interface "Searches.CreateRequest" [Named ApiRequest]
    ["clientId" !: TNumber;
     "name" ?: TString;
     "streetNumbers" ?: (TArray TString);
     "streetNames" ?: (TArray TString);
     "minBeds" ?: TNumber;
     "maxBeds" ?: TNumber;
     "maxMaintenanceFee" ?: TNumber;
     "minBaths" ?: TNumber;
     "maxBaths" ?: TNumber;
     "areas" ?: (TArray TString);
     "cities" ?: (TArray TString);
     "neighborhoods" ?: (TArray TString);
     "notificationFrequency" ?: ((TLit "instant") <|> (TLit "daily") <|> (TLit "weekly") <|> (TLit "monthly"));
     "minPrice" !: TNumber;
     "maxPrice" !: TNumber;
     "propertyTypes" ?: (TArray TString);
     "styles" ?: (TArray TString);
     "map" ?: TString;
     "status" ?: TBoolean;
     "type" !: Type_;
     "class" ?: (TArray Class);
     "minGarageSpaces" ?: TNumber;
     "minKitchens" ?: TNumber;
     "minParkingSpaces" ?: TNumber;
     "basement" ?: (TArray TString);
     "soldNotifications" ?: TBoolean;
     "priceChangeNotifications" ?: TBoolean;
     "sewer" ?: (TArray TString);
     "waterSource" ?: (TArray TString);
     "heating" ?: (TArray TString);
     "swimmingPool" ?: (TArray TString)].

Definition CreateResponse : decl :=
  interface "Searches.CreateResponse" [Named ApiResponse; Anonymous (Omit CreateRequest ["class"])]
    ["searchId" !: TNumber;
     "agentId" !: TNumber;
     "client" !: (Pick Clients.Client ["fname"; "lname"; "email"; "phone"])].

Definition UpdateRequest : decl :=
  interface "Searches.UpdateRequest" [Named ApiRequest]
    ["searchId" !: TNumber].

Definition UpdateResponse : decl :=
  interface "Searches.UpdateResponse" [Named ApiResponse]
    [].

Definition FilterRequest : decl :=
  interface "Searches.FilterRequest" [Named ApiRequest]
    ["clientId" !: TNumber].

Definition FilterResponse : decl :=
  interface "Searches.FilterResponse" [Named ApiResponse]
    ["page" !: TNumber;
     "numPages" !: TNumber;
     "pageSize" !: TNumber;
     "count" !: TNumber;
     "searches" !: (TArray CreateResponse)].

Definition DeleteRequest : decl :=
  interface "Searches.DeleteRequest" [Named ApiRequest]
    ["searchId" !: TNumber].

Definition DeleteResponse : decl :=
  interface "Searches.DeleteResponse" [Named ApiResponse]
    [].

Definition GetRequest : decl :=
  interface "Searches.GetRequest" [Named ApiRequest]
    ["searchId" !: TNumber].

Definition GetResponse : decl :=
  interface "Searches.GetResponse" [Named ApiResponse]
    ["client" !: (Record_ TString TUnknown)].

End Searches.

(** *** favorites.ts *)

Module Favorites.

Definition AddRequest : decl :=
  interface "Favorites.AddRequest" [Named ApiRequest]
    ["clientId" !: TNumber;
     "mlsNumber" !: TString;
     "boardId" ?: TNumber].

Definition AddResponse : decl :=
  interface "Favorites.AddResponse" [Named ApiResponse]
    [].

Definition DeleteRequest : decl :=
  interface "Favorites.DeleteRequest" [Named ApiRequest]
    ["favoriteId" !: TNumber].

Definition DeleteResponse : decl :=
  interface "Favorites.DeleteResponse" [Named ApiResponse]
    [].

Definition GetRequest : decl :=
  interface "Favorites.GetRequest" [Named ApiRequest]
    ["clientId" !: TNumber].

Definition GetResponse : decl :=
  interface "Favorites.GetResponse" [Named ApiResponse]
    ["page" !: TNumber;
     "numPages" !: TNumber;
     "pageSize" !: TNumber;
     "count" !: TNumber;
     "favorites" !: (TArray (TObject ["favoriteId" !: TNumber] (Some TUnknown)))].

End Favorites.

(** *** messages.ts *)

Module Messages.

Definition SendRequest : decl :=
  interface "Messages.SendRequest" [Named ApiRequest]
    ["sender" !: ((TLit "agent") <|> (TLit "client"));
     "agentId" !: TNumber;
     "clientId" !: TNumber;
     "content" !: (Partial (TObject
       ["listings" !: (TArray TString);
        "searches" !: (TArray TNumber);
        "message" !: TString;
        "links" !: (TArray TString);
        "pictures" !: (TArray TString)] None))].

Definition SendResponse : decl :=
  interface "Messages.SendResponse" [Named ApiResponse]
    [].

End Messages.

(** The interfaces that are referred to before they are complete: Listing
    by its own [comparables] and [history], RangeStat by BaseStat, and
    Searches.CreateResponse by Clients.Client (clients.ts and searches.ts
    import each other). *)
Definition shape_of (t : ty) : shape := (members_of t, index_of t).

Definition catalog_env (n : string) : option shape :=
  if n =? "Listings.Listing" then Some (shape_of Listings.Listing)
  else if n =? "Listings.RangeStat" then Some (shape_of Listings.RangeStat)
  else if n =? "Searches.CreateResponse" then Some (shape_of Searches.CreateResponse)
  else None.

(** A payload conforms to a declaration of the catalog. *)
Definition conforms (t : ty) (v : json) : bool := matches catalog_env v t.





(** A key that an object type has a place for: a declared property, or
    any key under an index signature. *)
Definition accepts_key (t : ty) (k : string) : bool :=
  match find_member k (members_of t) with
  | Some _ => true
  | None => match index_of t with Some _ => true | None => false end
  end.

(** The [@deprecated use X field instead] tags of a declaration. *)
Definition deprecated_aliases (ms : list (member ty)) : list (string * string) :=
  flat_map (fun m => match m_deprecated m with
                     | Some instead => [(m_name m, instead)]
                     | None => []
                     end) ms.

Definition required_names (ms : list (member ty)) : list string :=
  names (filter (fun m => negb (m_optional m)) ms).

Definition optional_names (ms : list (member ty)) : list string :=
  names (filter m_optional ms).

(** The type of a declared property ([T["k"]]). *)
Definition field_type (t : ty) (k : string) : option ty :=
  option_map m_type (find_member k (members_of t)).

(** The request and response shapes of the catalog, by group. *)
Definition request_shapes : list decl :=
  [Listings.SearchRequest; Listings.SimilarRequest; Listings.ListingRequest;
   Listings.LocationsRequest; Listings.NlpRequest;
   Estimate.AddRequest; Estimate.GetRequest; Estimate.DeleteRequest;
   Estimate.PatchRequest;
   Clients.CreateRequest; Clients.UpdateRequest; Clients.FilterRequest;
   Clients.RenameTagRequest;
   Searches.CreateRequest; Searches.UpdateRequest; Searches.FilterRequest;
   Searches.DeleteRequest; Searches.GetRequest;
   Favorites.AddRequest; Favorites.DeleteRequest; Favorites.GetRequest;
   Messages.SendRequest].

Definition response_shapes : list decl :=
  [Listings.SearchResponse; Listings.SimilarResponse; Listings.ListingResponse;
   Listings.LocationsResponse; Listings.NlpResponse;
   Estimate.AddResponse; Estimate.GetResponse; Estimate.DeleteResponse;
   Estimate.PatchResponse;
   Clients.CreateResponse; Clients.UpdateResponse; Clients.DeleteResponse;
   Clients.GetResponse; Clients.FilterResponse; Clients.GetTagsResponse;
   Clients.RenameTagResponse;
   Searches.CreateResponse; Searches.UpdateResponse; Searches.FilterResponse;
   Searches.DeleteResponse; Searches.GetResponse;
   Favorites.AddResponse; Favorites.DeleteResponse; Favorites.GetResponse;
   Messages.SendResponse].

Definition markers : list decl := [ApiRequest; ApiResponse; ApiRequestBody].

(** Every property of every object type inside [t] is optional.  (A
    reference back to a declared interface is not followed.) *)
Fixpoint deep_optional (t : ty) : bool :=
  match t with
  | TObject ms ix =>
      (fix all (ms : list (member ty)) : bool :=
         match ms with
         | [] => true
         | Member _ o t' _ :: rest => o && deep_optional t' && all rest
         end) ms
      && match ix with
         | Some t' => deep_optional t'
         | None => true
         end
  | TUnion alts =>
      (fix all (ts : list ty) : bool :=
         match ts with
         | [] => true
         | t' :: rest => deep_optional t' && all rest
         end) alts
  | TInter a b => deep_optional a && deep_optional b
  | TArray e => deep_optional e
  | TTuple es =>
      (fix all (ts : list ty) : bool :=
         match ts with
         | [] => true
         | t' :: rest => deep_optional t' && all rest
         end) es
  | TOmit t' _ => deep_optional t'
  | _ => true
  end.

Definition is_object (t : ty) : bool :=
  match t with
  | TObject _ _ => true
  | _ => false
  end.

(** A listing wrapped [n] times as the only comparable of an otherwise
    empty listing. *)
Fixpoint nest_comparables (n : nat) (v : json) : json :=
  match n with
  | O => v
  | S n' => JObj [("comparables", JArr [nest_comparables n' v])]
  end.

(** The [minX] / [maxX] pairs of a declaration: [X] with the types of
    the two properties. *)
Definition range_pairs (ms : list (member ty)) : list (string * (ty * ty)) :=
  flat_map (fun m =>
              if prefix "min" (m_name m)
              then let x := substring 3 (String.length (m_name m) - 3) (m_name m) in
                   match find_member ("max" ++ x) ms with
                   | Some m' => [(x, (m_type m, m_type m'))]
                   | None => []
                   end
              else []) ms.

(** The value lists of index.ts and listings.ts, each with the type
    derived from it. *)
Definition value_sets : list (list string * ty) :=
  [(AggregatesValues, Aggregates); (YesNoValues, YesNo); (ClassValues, Class);
   (LastStatusValues, LastStatus); (OperatorValues, Operator);
   (SimilarSortByValues, SimilarSortBy); (SortByValues, SortBy);
   (StatisticsValues, Statistics); (StatusValues, Status); (TypeValues, Type_);
   (Listings.StreetDirectionValues, Listings.StreetDirection);
   (Listings.CoverImageValues, Listings.CoverImage)].

(** The responses that come in pages. *)
Definition paged_responses : list (decl * string) :=
  [(Listings.SearchResponse, "listings"); (Estimate.GetResponse, "estimates");
   (Estimate.PatchResponse, "estimates"); (Clients.FilterResponse, "clients");
   (Searches.FilterResponse, "searches"); (Favorites.GetResponse, "favorites")].

(** No string occurs twice in the list. *)
Fixpoint distinct (l : list string) : bool :=
  match l with
  | [] => true
  | s :: rest => negb (existsb (String.eqb s) rest) && distinct rest
  end.

(** [string | null]. *)
Definition is_nullable_string (t : ty) : bool :=
  match t with
  | TUnion [TString; TNull] => true
  | _ => false
  end.

(** The declarations with an empty body. *)
Definition empty_shapes : list decl :=
  [Listings.SimilarResponse; Listings.NlpRequest;
   Clients.DeleteResponse; Clients.GetTagsResponse; Clients.RenameTagResponse;
   Searches.UpdateResponse; Searches.DeleteResponse;
   Favorites.AddResponse; Favorites.DeleteResponse;
   Messages.SendResponse].

(** * Facts about matching *)

Section MatchingFacts.

Variable env : string -> option shape.

Lemma matches_unknown (v : json) : matches env v TUnknown = true.
Proof. destruct v; reflexivity. Qed.

Lemma matches_object (kvs : list (string * json)) (ms : list (member ty)) (ix : option ty) :
  matches env (JObj kvs) (TObject ms ix)
  = required_present ms kvs && forallb (member_ok env (ms, ix)) kvs.
Proof.
  cbn [matches fst snd]. f_equal.
  induction kvs as [| [k w] rest IH]; [reflexivity |].
  cbn [forallb]. rewrite <- IH. reflexivity.
Qed.

Lemma matches_array (items : list json) (e : ty) :
  matches env (JArr items) (TArray e) = forallb (fun w => matches env w e) items.
Proof.
  cbn [matches].
  induction items as [| w rest IH]; [reflexivity |].
  cbn [forallb]. rewrite <- IH. reflexivity.
Qed.

Lemma matches_union (v : json) (alts : list ty) :
  matches env v (TUnion alts) = existsb (matches env v) alts.
Proof.
  destruct v; cbn [matches];
    (induction alts as [| t rest IH]; [reflexivity |]; cbn [existsb]; rewrite <- IH; reflexivity).
Qed.

Lemma matches_literal (s s' : string) :
  matches env (JStr s') (TLit s) = (s' =? s).
Proof. reflexivity. Qed.

(** A string matches the union of the literals of [values] exactly when
    it is one of them; nothing but a string matches it. *)
Lemma matches_typeof_number (values : list string) (s : string) :
  matches env (JStr s) (typeof_number values) = true <-> In s values.
Proof.
  unfold typeof_number. rewrite matches_union, existsb_exists. split.
  - intros (t & Hin & Hm). apply in_map_iff in Hin as (s0 & <- & Hin).
    rewrite matches_literal in Hm. apply String.eqb_eq in Hm. now subst.
  - intros Hin. exists (TLit s). split; [now apply in_map |].
    rewrite matches_literal. apply String.eqb_refl.
Qed.

Lemma has_key_app (k : string) (l1 l2 : list (string * json)) :
  has_key k (l1 ++ l2) = has_key k l1 || has_key k l2.
Proof. unfold has_key. apply existsb_app. Qed.

Lemma required_present_app (ms : list (member ty)) (l1 l2 : list (string * json)) :
  required_present ms l1 = true -> required_present ms (l1 ++ l2) = true.
Proof.
  unfold required_present. rewrite !forallb_forall. intros H m Hm.
  specialize (H m Hm). rewrite has_key_app.
  destruct (m_optional m); [reflexivity |]. cbn in *. now rewrite H.
Qed.

Lemma required_present_optional (ms : list (member ty)) (kvs : list (string * json)) :
  forallb m_optional ms = true -> required_present ms kvs = true.
Proof.
  unfold required_present. rewrite !forallb_forall. intros H m Hm.
  now rewrite (H m Hm).
Qed.

(** Under [[key: string]: unknown] a member with an undeclared key is
    always in order. *)
Lemma member_ok_undeclared (ms : list (member ty)) (u : string) (w : json) :
  find_member u ms = None -> member_ok env (ms, Some TUnknown) (u, w) = true.
Proof.
  intros Hu. unfold member_ok. cbn [fst snd]. rewrite Hu. apply matches_unknown.
Qed.

Lemma member_ok_declared (ms : list (member ty)) (ix : option ty)
      (k : string) (v : json) (m : member ty) :
  find_member k ms = Some m ->
  member_ok env (ms, ix) (k, v) = matches env v (m_type m).
Proof. intros Hk. unfold member_ok. cbn [fst snd]. now rewrite Hk. Qed.

(** An object type with the index signature cannot turn down a payload
    for a member it does not declare. *)
Lemma matches_extra_member (ms : list (member ty)) (kvs : list (string * json))
      (u : string) (w : json) :
  matches env (JObj kvs) (TObject ms (Some TUnknown)) = true ->
  find_member u ms = None ->
  matches env (JObj (kvs ++ [(u, w)])) (TObject ms (Some TUnknown)) = true.
Proof.
  rewrite !matches_object. intros H Hu.
  apply andb_true_iff in H as [Hreq Hall].
  rewrite required_present_app by exact Hreq.
  rewrite forallb_app, Hall. cbn [forallb].
  now rewrite member_ok_undeclared.
Qed.

Lemma find_member_names (k : string) (ms : list (member ty)) (m : member ty) :
  find_member k ms = Some m -> In k (names ms).
Proof.
  induction ms as [| m0 rest IH]; [discriminate |].
  cbn [find_member names map]. destruct (m_name m0 =? k) eqn:E.
  - apply String.eqb_eq in E. intros _. now left.
  - intros H. right. now apply IH.
Qed.

(** Without an index signature, every key of a matching payload is a
    declared name. *)
Lemma matches_closed_keys (ms : list (member ty)) (kvs : list (string * json)) :
  matches env (JObj kvs) (TObject ms None) = true ->
  forall k, has_key k kvs = true -> In k (names ms).
Proof.
  rewrite matches_object. intros H k Hk.
  apply andb_true_iff in H as [_ Hall].
  unfold has_key in Hk. apply existsb_exists in Hk as ([k' w] & Hin & Hk').
  cbn [fst] in Hk'. apply String.eqb_eq in Hk'. subst k'.
  rewrite forallb_forall in Hall. specialize (Hall _ Hin).
  unfold member_ok in Hall. cbn [fst snd] in Hall.
  destruct (find_member k ms) as [m |] eqn:E; [| discriminate].
  now apply find_member_names with m.
Qed.

(** A matching payload carries every required property. *)
Lemma matches_required (ms : list (member ty)) (ix : option ty)
      (kvs : list (string * json)) (m : member ty) :
  matches env (JObj kvs) (TObject ms ix) = true ->
  In m ms -> m_optional m = false -> has_key (m_name m) kvs = true.
Proof.
  rewrite matches_object. intros H Hin Hopt.
  apply andb_true_iff in H as [Hreq _].
  unfold required_present in Hreq. rewrite forallb_forall in Hreq.
  specialize (Hreq m Hin). now rewrite Hopt in Hreq.
Qed.

Lemma matches_required_name (ms : list (member ty)) (ix : option ty)
      (kvs : list (string * json)) (k : string) :
  matches env (JObj kvs) (TObject ms ix) = true ->
  In k (required_names ms) -> has_key k kvs = true.
Proof.
  intros H Hk. unfold required_names, names in Hk.
  apply in_map_iff in Hk as (m & <- & Hm).
  apply filter_In in Hm as [Hin Hopt].
  apply (matches_required ms ix kvs m H Hin).
  now destruct (m_optional m).
Qed.

(** Members whose keys the object type does not declare are all in
    order under the index signature. *)
Lemma members_ok_undeclared (ms : list (member ty)) (kvs : list (string * json)) :
  (forall k, In k (names ms) -> has_key k kvs = false) ->
  forallb (member_ok env (ms, Some TUnknown)) kvs = true.
Proof.
  intros Hfresh. apply forallb_forall. intros [k w] Hin.
  destruct (find_member k ms) as [m |] eqn:E.
  - apply find_member_names in E. specialize (Hfresh k E).
    assert (Hk : has_key k kvs = true).
    { unfold has_key. apply existsb_exists. exists (k, w).
      split; [exact Hin | apply String.eqb_refl]. }
    congruence.
  - now apply member_ok_undeclared.
Qed.

Lemma matches_tuple_length (items : list json) (es : list ty) :
  matches env (JArr items) (TTuple es) = true -> length items = length es.
Proof.
  cbn [matches]. revert es.
  induction items as [| w rest IH]; intros [| e es]; try discriminate; [reflexivity |].
  intros H. apply andb_true_iff in H as [_ H]. cbn [length]. f_equal. now apply IH.
Qed.

(** A payload of one declared and one undeclared member against an
    object type whose properties are all optional and which has the
    index signature. *)
Lemma matches_known_and_unknown (ms : list (member ty)) (k u : string)
      (v w : json) (m : member ty) :
  forallb m_optional ms = true ->
  find_member k ms = Some m ->
  matches env v (m_type m) = true ->
  find_member u ms = None ->
  matches env (JObj [(k, v); (u, w)]) (TObject ms (Some TUnknown)) = true.
Proof.
  intros Hopt Hk Hv Hu.
  rewrite matches_object, required_present_optional by exact Hopt.
  cbn [forallb andb].
  rewrite (member_ok_declared ms _ k v m Hk), Hv.
  now rewrite member_ok_undeclared.
Qed.

(** A payload of a single declared member against an object type whose
    properties are all optional. *)
Lemma matches_single_member (ms : list (member ty)) (ix : option ty)
      (k : string) (v : json) (m : member ty) :
  forallb m_optional ms = true ->
  find_member k ms = Some m ->
  matches env (JObj [(k, v)]) (TObject ms ix) = matches env v (m_type m).
Proof.
  intros Hopt Hk.
  rewrite matches_object, required_present_optional by exact Hopt.
  cbn [forallb andb].
  rewrite (member_ok_declared ms ix k v m Hk). apply andb_true_r.
Qed.

End MatchingFacts.

(** [Omit] over an object type with an index signature: [keyof] is
    [string | number], no literal is left to exclude, and the result is
    the index signature alone. *)
Lemma Omit_over_index_signature (ms : list (member ty)) (t : ty) (ks : list string) :
  Omit (TObject ms (Some t)) ks = TObject [] (Some t).
Proof. reflexivity. Qed.

(** Without an index signature [Omit] drops the named properties. *)
Lemma find_member_name (k : string) (ms : list (member ty)) (m : member ty) :
  find_member k ms = Some m -> m_name m = k.
Proof.
  induction ms as [| m0 rest IH]; [discriminate |].
  cbn [find_member]. destruct (m_name m0 =? k) eqn:E.
  - intros [= <-]. now apply String.eqb_eq.
  - exact IH.
Qed.

Lemma Omit_closed_names (ms : list (member ty)) (ks : list string) (k : string) :
  In k ks -> ~ In k (names (members_of (Omit (TObject ms None) ks))).
Proof.
  intros Hk Hin. cbn in Hin.
  unfold names in Hin. apply in_map_iff in Hin as (m & Hname & Hm).
  apply in_flat_map in Hm as (key & Hkey & Hm).
  apply filter_In in Hkey as [_ Hkeep].
  destruct key as [n | |]; try (now destruct Hm).
  destruct (find_member n ms) as [m' |] eqn:E; [| now destruct Hm].
  destruct Hm as [-> | []].
  apply find_member_name in E. rewrite Hname in E. subst n.
  apply negb_true_iff in Hkeep.
  assert (existsb (String.eqb k) ks = true)
    by (apply existsb_exists; exists k; split; [exact Hk | apply String.eqb_refl]).
  congruence.
Qed.

Lemma mem_In (s : string) (l : list string) :
  existsb (String.eqb s) l = true <-> In s l.
Proof.
  rewrite existsb_exists. split.
  - intros (x & Hin & E). apply String.eqb_eq in E. now subst.
  - intros Hin. exists s. split; [exact Hin | apply String.eqb_refl].
Qed.

Lemma not_mem_In (s : string) (l : list string) :
  existsb (String.eqb s) l = false -> ~ In s l.
Proof. intros E Hin. apply mem_In in Hin. congruence. Qed.



(** * Properties of the catalog *)










(** C2. Status is the ordered list A, U; Class is condo, residential,
    commercial; LastStatus has twelve codes; SortBy has at least
    twenty-five sort orders; and for each of the four, a string is
    accepted by the field type exactly when it is in the value list. *)
Theorem closed_value_sets :
  StatusValues = ["A"; "U"] /\
  ClassValues = ["condo"; "residential"; "commercial"] /\
  length LastStatusValues = 12 /\
  25 <= length SortByValues /\
  (forall s, conforms Status (JStr s) = true <-> In s StatusValues) /\
  (forall s, conforms Class (JStr s) = true <-> In s ClassValues) /\
  (forall s, conforms LastStatus (JStr s) = true <-> In s LastStatusValues) /\
  (forall s, conforms SortBy (JStr s) = true <-> In s SortByValues).
Proof.
  repeat split; try reflexivity; try (cbn; lia);
    try (apply matches_typeof_number); try (apply matches_typeof_number).
Qed.

Lemma closed_value_sets_witness :
  conforms Status (JStr "A") = true /\ In "Sld" LastStatusValues.
Proof.
  destruct closed_value_sets as (_ & _ & _ & _ & HS & _ & HL & _).
  split.
  - apply HS. simpl. left. reflexivity.
  - apply HL. reflexivity.
Defined.

(** C8. The Aggregates value list keeps the wire spelling: it has
    detail.numBedrooms and not details.numBedrooms, and the bathrooms
    key is details.numBathrooms. *)
Theorem Aggregates_keeps_wire_spelling :
  In "detail.numBedrooms" AggregatesValues /\
  ~ In "details.numBedrooms" AggregatesValues /\
  In "details.numBathrooms" AggregatesValues /\
  conforms Aggregates (JStr "detail.numBedrooms") = true /\
  conforms Aggregates (JStr "details.numBedrooms") = false.
Proof.
  repeat split; try reflexivity.
  - apply mem_In. reflexivity.
  - apply not_mem_In. reflexivity.
  - apply mem_In. reflexivity.
Qed.

(** C3, as stated: the deprecated aliases of SearchRequest are other than
    the two named ones, since minBeds is tagged as an alias of minBedrooms
    and four fields carry the tag. *)
Lemma SearchRequest_deprecated_not_two :
  In ("minBeds", "minBedrooms") (deprecated_aliases (members_of Listings.SearchRequest)) /\
  ~ In ("minBeds", "minBedrooms")
       [("maxBeds", "maxBedrooms"); ("maxBedsPlus", "maxBedroomsPlus")] /\
  length (deprecated_aliases (members_of Listings.SearchRequest)) = 4.
Proof.
  split; [| split].
  - vm_compute. right. right. left. reflexivity.
  - intros [H | [H | []]]; discriminate H.
  - reflexivity.
Qed.

(** C3, amended. Exactly four fields of SearchRequest are deprecated
    aliases: maxBeds of maxBedrooms, maxBedsPlus of maxBedroomsPlus,
    minBeds of minBedrooms and minBedsPlus of minBedroomsPlus.  The old
    and the new name of each pair are both declared, as optional
    numbers, so a request that gives a value under the old name matches
    the shape exactly when the request that gives it under the new name
    does; with the value 3 both match. *)
Theorem SearchRequest_deprecated_aliases :
  deprecated_aliases (members_of Listings.SearchRequest)
  = [("maxBeds", "maxBedrooms"); ("maxBedsPlus", "maxBedroomsPlus");
     ("minBeds", "minBedrooms"); ("minBedsPlus", "minBedroomsPlus")]
  /\
  forall old new : string,
    In (old, new) (deprecated_aliases (members_of Listings.SearchRequest)) ->
    find_member old (members_of Listings.SearchRequest)
    = Some (deprecated new (old ?: TNumber)) /\
    find_member new (members_of Listings.SearchRequest) = Some (new ?: TNumber) /\
    (forall v, conforms Listings.SearchRequest (JObj [(old, v)])
               = conforms Listings.SearchRequest (JObj [(new, v)])) /\
    conforms Listings.SearchRequest (JObj [(old, JNum (3 # 1))]) = true /\
    conforms Listings.SearchRequest (JObj [(new, JNum (3 # 1))]) = true.
Proof.
  split; [reflexivity |].
  intros old new Hin.
  assert (Hopt : forallb m_optional (members_of Listings.SearchRequest) = true)
    by reflexivity.
  assert (Hsingle : forall k m v,
             find_member k (members_of Listings.SearchRequest) = Some m ->
             conforms Listings.SearchRequest (JObj [(k, v)]) = conforms (m_type m) v).
  { intros k m v Hk. unfold conforms.
    change (d_type Listings.SearchRequest)
      with (TObject (members_of Listings.SearchRequest) (Some TUnknown)).
    now apply matches_single_member. }
  assert (Hold : find_member old (members_of Listings.SearchRequest)
                 = Some (deprecated new (old ?: TNumber)) /\
                 find_member new (members_of Listings.SearchRequest)
                 = Some (new ?: TNumber)).
  { change (In (old, new)
               [("maxBeds", "maxBedrooms"); ("maxBedsPlus", "maxBedroomsPlus");
                ("minBeds", "minBedrooms"); ("minBedsPlus", "minBedroomsPlus")]) in Hin.
    destruct Hin as [E | [E | [E | [E | []]]]]; inversion E; subst;
      split; reflexivity. }
  destruct Hold as [Ho Hn].
  repeat split; try assumption.
  - intros v. now rewrite (Hsingle _ _ v Ho), (Hsingle _ _ v Hn).
  - now rewrite (Hsingle _ _ _ Ho).
  - now rewrite (Hsingle _ _ _ Hn).
Qed.

Lemma SearchRequest_deprecated_aliases_witness :
  conforms Listings.SearchRequest (JObj [("maxBeds", JNum (3 # 1))])
  = conforms Listings.SearchRequest (JObj [("maxBedrooms", JNum (3 # 1))]).
Proof.
  destruct SearchRequest_deprecated_aliases as [Hall Hpair].
  destruct (Hpair "maxBeds" "maxBedrooms") as (_ & _ & Heq & _).
  - rewrite Hall. simpl. left. reflexivity.
  - exact (Heq (JNum (3 # 1))).
Defined.

(** C4, as stated: a SearchResponse payload with the pagination fields
    and the listings but without a statistics member is turned down. *)
Lemma SearchResponse_without_statistics :
  conforms Listings.SearchResponse
           (JObj [("page", JNum (1 # 1)); ("numPages", JNum (1 # 1));
                  ("pageSize", JNum (100 # 1)); ("count", JNum (0 # 1));
                  ("listings", JArr [])]) = false.
Proof. reflexivity. Qed.

(** C4, amended. SearchResponse has six required members: page,
    numPages, pageSize and count (numbers), listings (a sequence of
    Listing) and statistics; what is optional is every member of the
    statistics block.  A payload with the pagination fields, listings
    and an empty statistics block matches; the same payload without the
    statistics member does not. *)
Theorem SearchResponse_shape :
  map (fun m => (m_name m, m_optional m)) (members_of Listings.SearchResponse)
  = [("page", false); ("numPages", false); ("pageSize", false); ("count", false);
     ("listings", false); ("statistics", false)]
  /\ field_type Listings.SearchResponse "listings" = Some (TArray Listings.Listing)
  /\ (exists ms, field_type Listings.SearchResponse "statistics" = Some (TObject ms None) /\
                 forallb m_optional ms = true /\
                 names ms = ["available"; "new"; "closed"; "soldPrice"; "listPrice";
                             "daysOnMarket"; "sqft"])
  /\ forall (page numPages pageSize count : Q) (listings : list json),
       forallb (conforms Listings.Listing) listings = true ->
       conforms Listings.SearchResponse
                (JObj [("page", JNum page); ("numPages", JNum numPages);
                       ("pageSize", JNum pageSize); ("count", JNum count);
                       ("listings", JArr listings); ("statistics", JObj [])]) = true
       /\
       conforms Listings.SearchResponse
                (JObj [("page", JNum page); ("numPages", JNum numPages);
                       ("pageSize", JNum pageSize); ("count", JNum count);
                       ("listings", JArr listings)]) = false.
Proof.
  split; [reflexivity |]. split; [reflexivity |]. split.
  { eexists. split; [reflexivity |]. split; reflexivity. }
  intros page numPages pageSize count listings Hl.
  unfold conforms in *.
  change (d_type Listings.SearchResponse)
    with (TObject (members_of Listings.SearchResponse) (Some TUnknown)).
  rewrite !matches_object. split.
  - apply andb_true_iff. split; [reflexivity |].
    cbn [forallb]. unfold member_ok. cbn [fst snd].
    change (find_member "listings" (members_of Listings.SearchResponse))
      with (Some ("listings" !: TArray Listings.Listing)).
    cbn [m_type req].
    rewrite matches_array, Hl. reflexivity.
  - apply andb_false_iff. left. reflexivity.
Qed.

Lemma SearchResponse_shape_witness :
  conforms Listings.SearchResponse
           (JObj [("page", JNum (1 # 1)); ("numPages", JNum (1 # 1));
                  ("pageSize", JNum (100 # 1)); ("count", JNum (1 # 1));
                  ("listings", JArr [JObj [("mlsNumber", JStr "HMS1234567")]]);
                  ("statistics", JObj [])]) = true.
Proof.
  destruct SearchResponse_shape as (_ & _ & _ & H).
  apply (H (1 # 1)%Q (1 # 1)%Q (100 # 1)%Q (1 # 1)%Q [JObj [("mlsNumber", JStr "HMS1234567")]]).
  reflexivity.
Defined.

(** C5. Every response shape of the catalog extends ApiResponse, except
    three: Estimate.GetResponse and Estimate.DeleteResponse are declared
    [extends ApiRequest], and Estimate.PatchResponse extends GetResponse;
    none of the three reaches ApiResponse through its extends clauses,
    while Estimate.AddResponse beside them does.  (The two markers are
    the same object type, so only the extends clause tells them apart.) *)
Theorem Estimate_responses_extend_request_marker :
  map (extends_marker "ApiResponse")
      [Estimate.GetResponse; Estimate.DeleteResponse; Estimate.PatchResponse]
  = [false; false; false] /\
  map (extends_marker "ApiRequest")
      [Estimate.GetResponse; Estimate.DeleteResponse; Estimate.PatchResponse]
  = [true; true; true] /\
  extends_marker "ApiResponse" Estimate.AddResponse = true /\
  map d_name (filter (fun d => negb (extends_marker "ApiResponse" d)) response_shapes)
  = ["Estimate.GetResponse"; "Estimate.DeleteResponse"; "Estimate.PatchResponse"] /\
  d_type ApiRequest = d_type ApiResponse.
Proof. repeat split; reflexivity. Qed.

(** C6, as stated: an AddRequest payload with neither an address nor a
    details block (so without numBedrooms, numBathrooms, sqft and
    propertyType) matches the shape, and so does a PatchRequest payload
    with nothing but the estimateId. *)
Lemma Estimate_AddRequest_without_address :
  conforms Estimate.AddRequest (JObj [("clientId", JNum (7 # 1))]) = true /\
  has_key "address" [("clientId", JNum (7 # 1))] = false /\
  has_key "details" [("clientId", JNum (7 # 1))] = false /\
  conforms Estimate.PatchRequest (JObj [("estimateId", JNum (1 # 1))]) = true.
Proof. repeat split; reflexivity. Qed.

(** C6, amended. In AddRequest every top-level member is optional, the
    address and details blocks included.  An address block, when given,
    must carry city, streetName, streetNumber, streetSuffix and zip.  A
    details block, when given, must carry numBathrooms, numBedrooms,
    propertyType and sqft (and extras and style), and its fourteen other
    fields are optional: a request whose details block lacks one of the
    required fields does not match.  PatchRequest requires estimateId. *)
Theorem Estimate_AddRequest_required_fields :
  required_names (members_of Estimate.AddRequest) = [] /\
  (exists t, find_member "address" (members_of Estimate.AddRequest) = Some ("address" ?: t) /\
             index_of t = None /\
             required_names (members_of t)
             = ["city"; "streetName"; "streetNumber"; "streetSuffix"; "zip"] /\
             optional_names (members_of t) = ["unitNumber"]) /\
  (exists t, find_member "details" (members_of Estimate.AddRequest) = Some ("details" ?: t) /\
             index_of t = None /\
             required_names (members_of t)
             = ["extras"; "numBathrooms"; "numBedrooms"; "propertyType"; "sqft"; "style"] /\
             length (optional_names (members_of t)) = 14) /\
  (forall kvs, conforms Estimate.AddRequest (JObj [("details", JObj kvs)]) = true ->
               forall k, In k ["numBathrooms"; "numBedrooms"; "propertyType"; "sqft";
                               "extras"; "style"] ->
                         has_key k kvs = true) /\
  (forall kvs, conforms Estimate.AddRequest (JObj [("address", JObj kvs)]) = true ->
               forall k, In k ["city"; "streetName"; "streetNumber"; "streetSuffix"; "zip"] ->
                         has_key k kvs = true) /\
  required_names (members_of Estimate.PatchRequest) = ["estimateId"] /\
  (forall kvs, conforms Estimate.PatchRequest (JObj kvs) = true ->
               has_key "estimateId" kvs = true).
Proof.
  split; [reflexivity |].
  split; [eexists; repeat split; reflexivity |].
  split; [eexists; repeat split; reflexivity |].
  assert (Hopt : forallb m_optional (members_of Estimate.AddRequest) = true) by reflexivity.
  split; [| split; [| split; [reflexivity |]]].
  - intros kvs H k Hk. unfold conforms in H.
    change (d_type Estimate.AddRequest)
      with (TObject (members_of Estimate.AddRequest) (Some TUnknown)) in H.
    destruct (find_member "details" (members_of Estimate.AddRequest)) as [m |] eqn:E;
      [| discriminate E].
    rewrite (matches_single_member _ _ _ _ _ m Hopt E) in H.
    injection E as <-. cbn [m_type opt] in H.
    apply (matches_required_name _ _ _ _ _ H).
    destruct Hk as [<- | [<- | [<- | [<- | [<- | [<- | []]]]]]];
      apply mem_In; reflexivity.
  - intros kvs H k Hk. unfold conforms in H.
    change (d_type Estimate.AddRequest)
      with (TObject (members_of Estimate.AddRequest) (Some TUnknown)) in H.
    destruct (find_member "address" (members_of Estimate.AddRequest)) as [m |] eqn:E;
      [| discriminate E].
    rewrite (matches_single_member _ _ _ _ _ m Hopt E) in H.
    injection E as <-. cbn [m_type opt] in H.
    apply (matches_required_name _ _ _ _ _ H).
    destruct Hk as [<- | [<- | [<- | [<- | [<- | []]]]]];
      apply mem_In; reflexivity.
  - intros kvs H. unfold conforms in H.
    change (d_type Estimate.PatchRequest)
      with (TObject (members_of Estimate.PatchRequest) (Some TUnknown)) in H.
    apply (matches_required_name _ _ _ _ _ H).
    apply mem_In; reflexivity.
Qed.

Lemma Estimate_AddRequest_required_fields_witness :
  has_key "sqft"
          [("extras", JStr ""); ("numBathrooms", JNum (2 # 1)); ("numBedrooms", JNum (3 # 1));
           ("propertyType", JStr "Detached"); ("sqft", JNum (1500 # 1));
           ("style", JStr "2-Storey")] = true
  /\ has_key "estimateId" [("estimateId", JNum (1 # 1))] = true.
Proof.
  destruct Estimate_AddRequest_required_fields as (_ & _ & _ & Hd & _ & _ & Hp).
  split.
  - apply Hd.
    + reflexivity.
    + simpl. tauto.
  - apply Hp. reflexivity.
Defined.

(** C7, as stated: the area level of LocationsResponse carries neither a
    count nor coordinates (nor do the class and board levels). *)
Lemma LocationsResponse_area_without_count :
  names (members_of Listings.Area) = ["name"; "cities"] /\
  field_type Listings.Area "activeCount" = None /\
  field_type Listings.Area "coordinates" = None /\
  names (members_of (Listings.ClassWithAreas (TLit "condo"))) = ["name"; "areas"].
Proof. repeat split; reflexivity. Qed.

(** C7, amended. LocationsResponse is the fixed nesting board, class,
    area, city, neighborhood: [boards] is a one-element tuple whose board
    has [classes], a tuple of exactly the three classes condo,
    residential, commercial in that order; a class has [areas], an area
    has [cities], a city has [neighborhoods].  Only the city and the
    neighborhood levels carry a count ([activeCount], a required number)
    and coordinates (a required member whose value is a polygon list or
    null); the board, class and area levels carry neither. *)
Theorem LocationsResponse_hierarchy :
  (exists board,
      field_type Listings.LocationsResponse "boards" = Some (TTuple [board]) /\
      required_names (members_of board) = ["boardId"; "name"; "updatedOn"; "classes"] /\
      optional_names (members_of board) = [] /\
      field_type board "classes"
      = Some (TTuple [d_type (Listings.ClassWithAreas (TLit "condo"));
                      d_type (Listings.ClassWithAreas (TLit "residential"));
                      d_type (Listings.ClassWithAreas (TLit "commercial"))])) /\
  (forall Name : ty,
      names (members_of (Listings.ClassWithAreas Name)) = ["name"; "areas"] /\
      field_type (Listings.ClassWithAreas Name) "name" = Some Name /\
      field_type (Listings.ClassWithAreas Name) "areas" = Some (TArray Listings.Area)) /\
  (forall c s : string,
      conforms (Listings.ClassWithAreas (TLit c))
               (JObj [("name", JStr s); ("areas", JArr [])]) = (s =? c)) /\
  names (members_of Listings.Area) = ["name"; "cities"] /\
  field_type Listings.Area "cities" = Some (TArray Listings.City) /\
  names (members_of Listings.City)
  = ["name"; "activeCount"; "location"; "coordinates"; "state"; "neighborhoods"] /\
  field_type Listings.City "neighborhoods" = Some (TArray Listings.Neighborhood) /\
  names (members_of Listings.Neighborhood)
  = ["name"; "activeCount"; "location"; "coordinates"] /\
  (forall L : decl, In L [Listings.City; Listings.Neighborhood] ->
      find_member "activeCount" (members_of L) = Some ("activeCount" !: TNumber) /\
      find_member "coordinates" (members_of L)
      = Some ("coordinates" !: (Listings.LocationCoordinates <|> TNull)) /\
      conforms (Listings.LocationCoordinates <|> TNull) JNull = true /\
      conforms (Listings.LocationCoordinates <|> TNull)
               (JArr [JArr [JArr [JNum (-79 # 1); JNum (43 # 1)]]]) = true).
Proof.
  split.
  { eexists. split; [reflexivity |]. repeat split; reflexivity. }
  split; [intros Name; repeat split; reflexivity |].
  split.
  { intros c s. unfold conforms.
    change (d_type (Listings.ClassWithAreas (TLit c)))
      with (TObject ["name" !: TLit c; "areas" !: TArray Listings.Area] None).
    rewrite matches_object. cbn. now rewrite !andb_true_r. }
  repeat (split; [reflexivity |]).
  intros L [<- | [<- | []]]; repeat split; reflexivity.
Qed.

Lemma LocationsResponse_hierarchy_witness :
  find_member "activeCount" (members_of Listings.City) = Some ("activeCount" !: TNumber).
Proof.
  destruct LocationsResponse_hierarchy as (_ & _ & _ & _ & _ & _ & _ & _ & H).
  apply (H Listings.City). simpl. left. reflexivity.
Defined.

(** C9, as stated: the class field of the CreateRequest is not among the
    declared fields of the CreateResponse. *)
Lemma Searches_CreateResponse_without_class :
  In "class" (names (members_of Searches.CreateRequest)) /\
  ~ In "class" (names (members_of Searches.CreateResponse)).
Proof.
  split.
  - apply mem_In. reflexivity.
  - apply not_mem_In. reflexivity.
Qed.

(** C9, amended. Searches.CreateResponse takes the CreateRequest with
    its class field omitted, so class is not a declared field of the
    response.  It adds the required numbers searchId and agentId and a
    required client, a closed projection of Client with exactly fname,
    lname, email and phone, each typed as in Client, and no other field
    of Client.  A response that echoes the members of a matching request
    and adds searchId, agentId and such a client matches the shape. *)
Theorem Searches_CreateResponse_shape :
  field_type Searches.CreateResponse "class" = None /\
  find_member "searchId" (members_of Searches.CreateResponse) = Some ("searchId" !: TNumber) /\
  find_member "agentId" (members_of Searches.CreateResponse) = Some ("agentId" !: TNumber) /\
  (exists client,
      find_member "client" (members_of Searches.CreateResponse) = Some ("client" !: client) /\
      client = Pick Clients.Client ["fname"; "lname"; "email"; "phone"] /\
      index_of client = None /\
      names (members_of client) = ["fname"; "lname"; "email"; "phone"] /\
      (forall k, In k ["fname"; "lname"; "email"; "phone"] ->
                 find_member k (members_of client)
                 = find_member k (members_of Clients.Client)) /\
      (forall k, accepts_key client k = true ->
                 In k ["fname"; "lname"; "email"; "phone"]) /\
      (forall kvs, conforms client (JObj kvs) = true ->
                   forall k, has_key k kvs = true ->
                             In k ["fname"; "lname"; "email"; "phone"]) /\
      (forall (kvs : list (string * json)) (searchId agentId : Q) (c : json),
          conforms Searches.CreateRequest (JObj kvs) = true ->
          (forall k, In k ["searchId"; "agentId"; "client"] -> has_key k kvs = false) ->
          conforms client c = true ->
          conforms Searches.CreateResponse
                   (JObj (kvs ++ [("searchId", JNum searchId); ("agentId", JNum agentId);
                                  ("client", c)])) = true)).
Proof.
  split; [reflexivity |].
  split; [reflexivity |]. split; [reflexivity |].
  exists (Pick Clients.Client ["fname"; "lname"; "email"; "phone"]).
  split; [reflexivity |]. split; [reflexivity |]. split; [reflexivity |].
  split; [reflexivity |]. split; [| split; [| split]].
  - intros k [<- | [<- | [<- | [<- | []]]]]; reflexivity.
  - intros k Hk. unfold accepts_key in Hk.
    change (index_of (Pick Clients.Client ["fname"; "lname"; "email"; "phone"]))
      with (@None ty) in Hk.
    destruct (find_member k _) as [m |] eqn:E; [| discriminate Hk].
    apply find_member_names in E. exact E.
  - intros kvs H. unfold conforms in H.
    change (Pick Clients.Client ["fname"; "lname"; "email"; "phone"])
      with (TObject (members_of (Pick Clients.Client ["fname"; "lname"; "email"; "phone"]))
                    None) in H.
    exact (matches_closed_keys _ _ _ H).
  - intros kvs searchId agentId c _ Hfresh Hc. unfold conforms in *.
    change (d_type Searches.CreateResponse)
      with (TObject (members_of Searches.CreateResponse) (Some TUnknown)).
    rewrite matches_object. apply andb_true_iff. split.
    + unfold required_present. apply forallb_forall. intros m Hm.
      rewrite has_key_app.
      destruct Hm as [<- | [<- | [<- | []]]]; cbn; apply orb_true_r.
    + rewrite forallb_app, members_ok_undeclared by exact Hfresh.
      cbn [forallb andb]. unfold member_ok. cbn [fst snd].
      change (find_member "client" (members_of Searches.CreateResponse))
        with (Some ("client" !: Pick Clients.Client ["fname"; "lname"; "email"; "phone"])).
      cbn [m_type req]. rewrite Hc. reflexivity.
Qed.

Lemma Searches_CreateResponse_shape_witness :
  conforms Searches.CreateResponse
           (JObj ([("clientId", JNum (5 # 1)); ("minPrice", JNum (500000 # 1));
                   ("maxPrice", JNum (900000 # 1)); ("type", JStr "sale")]
                  ++ [("searchId", JNum (41 # 1)); ("agentId", JNum (9 # 1));
                      ("client", JObj [("fname", JStr "Ada"); ("lname", JStr "Byron");
                                       ("email", JStr "ada@example.org");
                                       ("phone", JStr "14165550100")])])) = true
  /\ In "email" ["fname"; "lname"; "email"; "phone"].
Proof.
  destruct Searches_CreateResponse_shape
    as (_ & _ & _ & client & _ & -> & _ & _ & _ & Hk & _ & Hecho).
  split.
  - apply Hecho.
    + reflexivity.
    + intros k [<- | [<- | [<- | []]]]; reflexivity.
    + reflexivity.
  - apply Hk. reflexivity.
Defined.

(** C10. Every request and response shape of the catalog, like the three
    markers, has the index signature [[key: string]: unknown] that the
    markers take from Record<string, unknown>; so none of them can turn
    down a payload for an unknown top-level field: a payload that
    matches still matches with any undeclared member added. *)
Theorem catalog_shapes_accept_unknown_fields :
  forall d : decl, In d (markers ++ request_shapes ++ response_shapes) ->
    index_of d = Some TUnknown /\
    forall (kvs : list (string * json)) (u : string) (w : json),
      conforms d (JObj kvs) = true ->
      find_member u (members_of d) = None ->
      conforms d (JObj (kvs ++ [(u, w)])) = true.
Proof.
  intros d Hd.
  assert (Hix : index_of d = Some TUnknown).
  { cbn [markers request_shapes response_shapes app] in Hd.
    repeat (destruct Hd as [<- | Hd]; [reflexivity |]). destruct Hd. }
  split; [exact Hix |].
  intros kvs u w H Hu. unfold conforms in *.
  destruct (d_type d) as [| | | | | | | | | | | | ms ix | | |]; try discriminate Hix.
  cbn [index_of] in Hix. subst ix. cbn [members_of] in Hu.
  now apply matches_extra_member.
Qed.

Lemma catalog_shapes_accept_unknown_fields_witness :
  conforms Favorites.DeleteRequest
           (JObj ([("favoriteId", JNum (12 # 1))] ++ [("traceId", JStr "abc")])) = true.
Proof.
  apply (catalog_shapes_accept_unknown_fields Favorites.DeleteRequest).
  - apply in_or_app. right. apply in_or_app. left.
    unfold request_shapes. simpl. tauto.
  - reflexivity.
  - reflexivity.
Defined.

(** * Further properties of the catalog *)

Lemma find_member_In (k : string) (ms : list (member ty)) (m : member ty) :
  find_member k ms = Some m -> In m ms.
Proof.
  induction ms as [| m0 rest IH]; [discriminate |].
  cbn [find_member]. destruct (m_name m0 =? k).
  - intros [= <-]. now left.
  - intros H. right. now apply IH.
Qed.

(** A check made on every property of a declaration holds of the
    property found under a name. *)
Lemma forallb_find_member (f : member ty -> bool) (ms : list (member ty))
      (k : string) (m : member ty) :
  forallb f ms = true -> find_member k ms = Some m -> f m = true /\ m_name m = k.
Proof.
  intros Hall Hk. split.
  - rewrite forallb_forall in Hall. apply Hall. now apply find_member_In with k.
  - now apply find_member_name with ms.
Qed.

Lemma forallb_pointwise {A : Type} (f g : A -> bool) (l : list A) :
  (forall a, f a = g a) -> forallb f l = forallb g l.
Proof.
  intros E. induction l as [| a rest IH]; [reflexivity |].
  cbn [forallb]. now rewrite E, IH.
Qed.

Lemma field_type_member (t : ty) (k : string) (t' : ty) :
  field_type t k = Some t' ->
  exists m, find_member k (members_of t) = Some m /\ m_type m = t'.
Proof.
  unfold field_type. destruct (find_member k (members_of t)) as [m |]; [| discriminate].
  intros [= <-]. now exists m.
Qed.

Lemma has_key_In (k : string) (kvs : list (string * json)) :
  has_key k kvs = true <-> exists w, In (k, w) kvs.
Proof.
  unfold has_key. rewrite existsb_exists. split.
  - intros ([k' w] & Hin & E). cbn [fst] in E. apply String.eqb_eq in E. subst k'.
    now exists w.
  - intros (w & Hin). exists (k, w). split; [exact Hin | apply String.eqb_refl].
Qed.

(** What a matching payload holds under a declared name has the declared
    type. *)
Lemma matches_member (env : string -> option shape) (ms : list (member ty))
      (ix : option ty) (kvs : list (string * json)) (k : string) (w : json) (m : member ty) :
  matches env (JObj kvs) (TObject ms ix) = true ->
  In (k, w) kvs -> find_member k ms = Some m ->
  matches env w (m_type m) = true.
Proof.
  rewrite matches_object. intros H Hin Hk.
  apply andb_true_iff in H as [_ Hall].
  rewrite forallb_forall in Hall. specialize (Hall _ Hin).
  now rewrite (member_ok_declared env ms ix k w m Hk) in Hall.
Qed.

Lemma matches_object_only (env : string -> option shape) (v : json)
      (ms : list (member ty)) (ix : option ty) :
  matches env v (TObject ms ix) = true -> exists kvs, v = JObj kvs.
Proof. destruct v; try discriminate. intros _. now eexists. Qed.

(** Nothing but a string of the list matches the type derived from a
    value list. *)
Lemma matches_typeof_number_inv (env : string -> option shape)
      (values : list string) (v : json) :
  matches env v (typeof_number values) = true <-> exists s, v = JStr s /\ In s values.
Proof.
  split.
  - intros H. destruct v as [| b | q | s | items | kvs];
      try (exfalso; unfold typeof_number in H; rewrite matches_union in H;
           apply existsb_exists in H as (t & Hin & Hm);
           apply in_map_iff in Hin as (s0 & <- & _); discriminate Hm).
    exists s. split; [reflexivity |]. now apply (matches_typeof_number env).
  - intros (s & -> & Hin). now apply matches_typeof_number.
Qed.

(** X1. Every top-level field of Listing is optional, so the empty
    object is a Listing; and every field of every object nested in a
    Listing is optional too, with one exception: a map block must carry
    latitude, longitude and point.  Any other nested block may be given
    empty; an empty map block is turned down. *)
Theorem Listing_fields_optional :
  forallb m_optional (members_of Listings.Listing) = true /\
  conforms Listings.Listing (JObj []) = true /\
  (forall k t, field_type Listings.Listing k = Some t -> k <> "map" ->
               deep_optional t = true) /\
  (forall k t, field_type Listings.Listing k = Some t -> is_object t = true ->
               k <> "map" ->
               conforms Listings.Listing (JObj [(k, JObj [])]) = true) /\
  field_type Listings.Listing "map" = Some (d_type Listings.Map) /\
  required_names (members_of Listings.Map) = ["latitude"; "longitude"; "point"] /\
  conforms Listings.Listing (JObj [("map", JObj [])]) = false.
Proof.
  split; [reflexivity |]. split; [reflexivity |]. split; [| split].
  - intros k t Ht Hk.
    apply field_type_member in Ht as (m & Hm & <-).
    assert (Hall : forallb (fun m => (m_name m =? "map") || deep_optional (m_type m))
                           (members_of Listings.Listing) = true) by reflexivity.
    destruct (forallb_find_member _ _ _ _ Hall Hm) as [H Hname].
    rewrite Hname in H. apply String.eqb_neq in Hk. now rewrite Hk in H.
  - intros k t Ht Hobj Hk.
    apply field_type_member in Ht as (m & Hm & <-).
    assert (Hall : forallb (fun m => (m_name m =? "map") || negb (is_object (m_type m))
                                     || conforms Listings.Listing (JObj [(m_name m, JObj [])]))
                           (members_of Listings.Listing) = true) by (vm_compute; reflexivity).
    destruct (forallb_find_member _ _ _ _ Hall Hm) as [H Hname].
    rewrite Hname in H. apply String.eqb_neq in Hk. now rewrite Hk, Hobj in H.
  - repeat split; reflexivity.
Qed.

Lemma Listing_fields_optional_witness :
  conforms Listings.Listing (JObj [("address", JObj [])]) = true.
Proof.
  destruct Listing_fields_optional as (_ & _ & _ & H & _).
  apply (H "address" (d_type Listings.Address)).
  - reflexivity.
  - reflexivity.
  - discriminate.
Defined.

(** [Partial<Listing>] is Listing: a value is taken as a comparable or a
    history entry exactly when it is a Listing. *)
Lemma Partial_Listing_same (v : json) :
  conforms (TPartial (TRef "Listings.Listing")) v = conforms Listings.Listing v.
Proof. destruct v; reflexivity. Qed.

(** X2. The comparables and the history of a Listing are sequences of
    Listings (Partial changes nothing, every field being optional
    already): a Listing with such a sequence matches exactly when each
    entry is itself a Listing, and so at any depth of nesting. *)
Theorem Listing_comparables_are_listings :
  (forall k, In k ["comparables"; "history"] ->
     forall vs : list json,
       conforms Listings.Listing (JObj [(k, JArr vs)])
       = forallb (conforms Listings.Listing) vs) /\
  (forall (n : nat) (v : json),
       conforms Listings.Listing v = true ->
       conforms Listings.Listing (nest_comparables n v) = true) /\
  (forall (n : nat) (v : json),
       conforms Listings.Listing v = false ->
       conforms Listings.Listing (nest_comparables n v) = false).
Proof.
  assert (Hopt : forallb m_optional (members_of Listings.Listing) = true) by reflexivity.
  assert (Hseq : forall k, In k ["comparables"; "history"] ->
                 forall vs, conforms Listings.Listing (JObj [(k, JArr vs)])
                            = forallb (conforms Listings.Listing) vs).
  { intros k Hk vs. unfold conforms at 1.
    change (d_type Listings.Listing)
      with (TObject (members_of Listings.Listing) (Some TUnknown)).
    assert (Hm : find_member k (members_of Listings.Listing)
                 = Some (k ?: TArray (TPartial (TRef "Listings.Listing")))).
    { destruct Hk as [<- | [<- | []]]; reflexivity. }
    rewrite (matches_single_member _ _ _ _ _ _ Hopt Hm). cbn [m_type opt].
    rewrite matches_array. apply forallb_pointwise. intros w. apply Partial_Listing_same. }
  split; [exact Hseq |].
  assert (Hnest : forall n v, conforms Listings.Listing (nest_comparables (S n) v)
                              = conforms Listings.Listing (nest_comparables n v)).
  { intros n v. cbn [nest_comparables]. rewrite Hseq by (left; reflexivity).
    cbn [forallb]. apply andb_true_r. }
  split; intros n v Hv; (induction n as [| n IH]; [exact Hv | now rewrite Hnest]).
Qed.

Lemma Listing_comparables_are_listings_witness :
  conforms Listings.Listing
           (nest_comparables 3 (JObj [("mlsNumber", JStr "HMS1234567"); ("status", JStr "A")]))
  = true /\
  conforms Listings.Listing
           (nest_comparables 2 (JObj [("status", JStr "Sold")])) = false.
Proof.
  destruct Listing_comparables_are_listings as (_ & Hyes & Hno).
  split; [apply Hyes | apply Hno]; reflexivity.
Defined.

Lemma distinct_NoDup (l : list string) : distinct l = true -> NoDup l.
Proof.
  induction l as [| s rest IH]; [constructor |].
  cbn [distinct]. intros H. apply andb_true_iff in H as [Hs Hr].
  constructor; [| now apply IH].
  apply not_mem_In. now apply negb_true_iff.
Qed.

Lemma mem_incl (l1 l2 : list string) :
  forallb (fun s => existsb (String.eqb s) l2) l1 = true -> incl l1 l2.
Proof.
  intros H s Hs. rewrite forallb_forall in H. apply mem_In. now apply H.
Qed.

(** X3. For each of the twelve value lists of the catalog, a JSON value
    is accepted by the type derived from the list exactly when it is a
    string and one of the listed literals: numbers, booleans, null,
    arrays and objects are turned down, and so is any other string. *)
Theorem value_sets_accept_their_literals :
  forall (values : list string) (T : ty), In (values, T) value_sets ->
    forall v : json,
      conforms T v = true <-> exists s, v = JStr s /\ In s values.
Proof.
  intros values T Hin v. unfold conforms.
  cbn [value_sets] in Hin.
  repeat (destruct Hin as [[= <- <-] | Hin]; [apply matches_typeof_number_inv |]).
  destruct Hin.
Qed.

Lemma value_sets_accept_their_literals_witness :
  exists s, JStr "lease" = JStr s /\ In s TypeValues.
Proof.
  apply (value_sets_accept_their_literals TypeValues Type_).
  - unfold value_sets. simpl. tauto.
  - reflexivity.
Defined.

(** X4. No value list of the catalog names a literal twice. *)
Theorem value_sets_have_no_duplicates :
  forall (values : list string) (T : ty), In (values, T) value_sets -> NoDup values.
Proof.
  intros values T Hin. cbn [value_sets] in Hin.
  repeat (destruct Hin as [[= <- <-] | Hin]; [apply distinct_NoDup; reflexivity |]).
  destruct Hin.
Qed.

Lemma value_sets_have_no_duplicates_witness : NoDup SortByValues.
Proof.
  apply (value_sets_have_no_duplicates SortByValues SortBy).
  unfold value_sets. simpl. tauto.
Defined.

(** X5. Every sort order of a similar-listings request is a sort order
    of a search: a value accepted as SimilarSortBy is accepted as SortBy,
    so the sortBy of a SimilarRequest can be passed on as the sortBy of
    a SearchRequest.  The converse fails (distanceAsc). *)
Theorem SimilarSortBy_within_SortBy :
  (forall v, conforms SimilarSortBy v = true -> conforms SortBy v = true) /\
  (forall v, conforms Listings.SimilarRequest
                      (JObj [("propertyId", JStr "HMS1234567"); ("sortBy", v)]) = true ->
             conforms Listings.SearchRequest (JObj [("sortBy", v)]) = true) /\
  conforms SortBy (JStr "distanceAsc") = true /\
  conforms SimilarSortBy (JStr "distanceAsc") = false.
Proof.
  assert (Hsub : forall v, conforms SimilarSortBy v = true -> conforms SortBy v = true).
  { intros v H. unfold conforms in *.
    apply matches_typeof_number_inv in H as (s & -> & Hs).
    apply matches_typeof_number.
    revert s Hs. apply mem_incl. reflexivity. }
  split; [exact Hsub |]. split; [| split; reflexivity].
  intros v H.
  assert (Hv : conforms SimilarSortBy v = true).
  { unfold conforms in *.
    change (d_type Listings.SimilarRequest)
      with (TObject (members_of Listings.SimilarRequest) (Some TUnknown)) in H.
    refine (matches_member _ _ _ _ "sortBy" v ("sortBy" ?: SimilarSortBy) H _ eq_refl).
    right. left. reflexivity. }
  unfold conforms.
  change (d_type Listings.SearchRequest)
    with (TObject (members_of Listings.SearchRequest) (Some TUnknown)).
  rewrite (matches_single_member _ _ _ "sortBy" v ("sortBy" ?: SortBy)); try reflexivity.
  now apply Hsub.
Qed.

Lemma SimilarSortBy_within_SortBy_witness :
  conforms Listings.SearchRequest (JObj [("sortBy", JStr "updatedOnDesc")]) = true.
Proof.
  destruct SimilarSortBy_within_SortBy as (_ & H & _).
  apply H. reflexivity.
Defined.

(** X6. The enumerated fields status, class, type and lastStatus are
    single values on a Listing and lists of the same values on a
    SearchRequest: a value a Listing carries in one of these fields is
    accepted by a SearchRequest in a one-element list, and turned down
    bare. *)
Theorem SearchRequest_filters_by_lists :
  forall f, In f ["status"; "class"; "type"; "lastStatus"] ->
    (exists t, field_type Listings.Listing f = Some t /\
               field_type Listings.SearchRequest f = Some (TArray t)) /\
    forall v, conforms Listings.Listing (JObj [(f, v)]) = true ->
              conforms Listings.SearchRequest (JObj [(f, JArr [v])]) = true /\
              conforms Listings.SearchRequest (JObj [(f, v)]) = false.
Proof.
  intros f Hf.
  assert (HoL : forallb m_optional (members_of Listings.Listing) = true) by reflexivity.
  assert (HoS : forallb m_optional (members_of Listings.SearchRequest) = true) by reflexivity.
  assert (H : exists values,
             find_member f (members_of Listings.Listing) = Some (f ?: typeof_number values) /\
             find_member f (members_of Listings.SearchRequest)
             = Some (f ?: TArray (typeof_number values))).
  { destruct Hf as [<- | [<- | [<- | [<- | []]]]];
      [exists StatusValues | exists ClassValues | exists TypeValues | exists LastStatusValues];
      split; reflexivity. }
  destruct H as (values & HL & HS). split.
  - exists (typeof_number values). unfold field_type. rewrite HL, HS. split; reflexivity.
  - intros v Hv. unfold conforms in *.
    change (d_type Listings.Listing)
      with (TObject (members_of Listings.Listing) (Some TUnknown)) in Hv.
    change (d_type Listings.SearchRequest)
      with (TObject (members_of Listings.SearchRequest) (Some TUnknown)).
    rewrite (matches_single_member _ _ _ _ _ _ HoL HL) in Hv.
    rewrite !(matches_single_member _ _ _ _ _ _ HoS HS).
    cbn [m_type opt] in *.
    apply matches_typeof_number_inv in Hv as (s & -> & Hs).
    split; [| reflexivity].
    rewrite matches_array. cbn [forallb].
    rewrite (proj2 (matches_typeof_number catalog_env values s) Hs). reflexivity.
Qed.

Lemma SearchRequest_filters_by_lists_witness :
  conforms Listings.SearchRequest (JObj [("status", JArr [JStr "A"])]) = true /\
  conforms Listings.SearchRequest (JObj [("status", JStr "A")]) = false.
Proof.
  apply (SearchRequest_filters_by_lists "status").
  - simpl. tauto.
  - reflexivity.
Defined.

(** X7. The min/max pairs of SearchRequest are typed alike, both ends a
    number or both a date, with two exceptions: minSoldPrice is a string
    while maxSoldPrice is a number, and minYearBuilt is a date while
    maxYearBuilt is a number.  For these two pairs no value is accepted
    at both ends. *)
Theorem SearchRequest_range_pairs :
  map fst (range_pairs (members_of Listings.SearchRequest))
  = ["Baths"; "Beds"; "Bedrooms"; "BedsPlus"; "BedroomsPlus"; "BedroomsTotal";
     "Kitchens"; "ListDate"; "OpenHouseDate"; "Price"; "RepliersUpdatedOn";
     "SoldDate"; "SoldPrice"; "Sqft"; "StreetNumber"; "UnavailableDate";
     "UpdatedOn"; "YearBuilt"] /\
  (forall x lo hi, In (x, (lo, hi)) (range_pairs (members_of Listings.SearchRequest)) ->
                   x <> "SoldPrice" -> x <> "YearBuilt" ->
                   lo = hi /\ (lo = TNumber \/ lo = DateFormat)) /\
  In ("SoldPrice", (TString, TNumber)) (range_pairs (members_of Listings.SearchRequest)) /\
  In ("YearBuilt", (DateFormat, TNumber)) (range_pairs (members_of Listings.SearchRequest)) /\
  (forall x, In x ["SoldPrice"; "YearBuilt"] ->
     forall v, conforms Listings.SearchRequest (JObj [(("min" ++ x)%string, v); (("max" ++ x)%string, v)])
               = false).
Proof.
  split; [reflexivity |]. split; [| split; [| split]].
  - intros x lo hi Hin Hs Hy. vm_compute in Hin.
    repeat (destruct Hin as [[= <- <- <-] | Hin];
            [first [ split; [reflexivity | first [left; reflexivity | right; reflexivity]]
                   | exfalso; first [now apply Hs | now apply Hy] ] |]).
    destruct Hin.
  - vm_compute. tauto.
  - vm_compute. tauto.
  - intros x Hx v. unfold conforms.
    change (d_type Listings.SearchRequest)
      with (TObject (members_of Listings.SearchRequest) (Some TUnknown)).
    rewrite matches_object. apply andb_false_iff. right.
    cbn [forallb]. unfold member_ok. cbn [fst snd].
    destruct Hx as [<- | [<- | []]].
    + change (find_member ("min" ++ "SoldPrice")%string (members_of Listings.SearchRequest))
        with (Some ("minSoldPrice" ?: TString)).
      change (find_member ("max" ++ "SoldPrice")%string (members_of Listings.SearchRequest))
        with (Some ("maxSoldPrice" ?: TNumber)).
      destruct v; reflexivity.
    + change (find_member ("min" ++ "YearBuilt")%string (members_of Listings.SearchRequest))
        with (Some ("minYearBuilt" ?: DateFormat)).
      change (find_member ("max" ++ "YearBuilt")%string (members_of Listings.SearchRequest))
        with (Some ("maxYearBuilt" ?: TNumber)).
      destruct v; cbn; try reflexivity. apply andb_false_r.
Qed.

Lemma SearchRequest_range_pairs_witness :
  conforms Listings.SearchRequest
           (JObj [(("min" ++ "SoldPrice")%string, JStr "500000"); (("max" ++ "SoldPrice")%string, JStr "500000")])
  = false.
Proof.
  destruct SearchRequest_range_pairs as (_ & _ & _ & _ & H).
  apply (H "SoldPrice"). simpl. tauto.
Defined.

Lemma get_member_In (k : string) (kvs : list (string * json)) (w : json) :
  get_member k kvs = Some w -> In (k, w) kvs.
Proof.
  induction kvs as [| [k' w'] rest IH]; [discriminate |].
  cbn [get_member]. destruct (k' =? k) eqn:E.
  - apply String.eqb_eq in E. intros [= <-]. subst. now left.
  - intros H. right. now apply IH.
Qed.

Lemma has_key_get_member (k : string) (kvs : list (string * json)) :
  has_key k kvs = true -> exists w, get_member k kvs = Some w.
Proof.
  induction kvs as [| [k' w'] rest IH]; [discriminate |].
  unfold has_key. cbn [existsb fst get_member]. destruct (k' =? k).
  - intros _. now exists w'.
  - exact IH.
Qed.

(** The value a matching payload holds under a required name. *)
Lemma matches_required_member (env : string -> option shape) (ms : list (member ty))
      (ix : option ty) (kvs : list (string * json)) (m : member ty) :
  matches env (JObj kvs) (TObject ms ix) = true ->
  find_member (m_name m) ms = Some m -> m_optional m = false ->
  exists w, get_member (m_name m) kvs = Some w /\ matches env w (m_type m) = true.
Proof.
  intros H Hm Hreq.
  assert (Hk : has_key (m_name m) kvs = true).
  { apply (matches_required env ms ix kvs m H); [now apply find_member_In with (m_name m) | exact Hreq]. }
  apply has_key_get_member in Hk as (w & Hw). exists w. split; [exact Hw |].
  apply (matches_member env ms ix kvs (m_name m) w m H); [now apply get_member_In | exact Hm].
Qed.

(** X8. No payload is both an Estimate.AddRequest and the payload of a
    stored Estimate: the stored payload requires a lot block whose depth
    is a string, while the lot of an AddRequest takes depth as a number.
    So what AddResponse echoes as payload (an AddRequest) is never what
    an Estimate holds as payload. *)
Theorem Estimate_payload_is_no_AddRequest :
  field_type Estimate.AddResponse "payload" = Some (d_type Estimate.AddRequest) /\
  exists P, field_type Estimate.Estimate "payload" = Some P /\
            required_names (members_of P)
            = ["address"; "details"; "taxes"; "map"; "condominium"; "lot"] /\
            forall v, conforms Estimate.AddRequest v = true -> conforms P v = false.
Proof.
  split; [reflexivity |]. eexists. split; [reflexivity |]. split; [reflexivity |].
  intros v HA.
  match goal with
  | |- conforms ?P v = false => set (T := P); destruct (conforms T v) eqn:HP
  end; [exfalso | reflexivity].
  unfold conforms in *.
  change T with (TObject (members_of T) (Some TUnknown)) in HP.
  destruct (matches_object_only _ _ _ _ HP) as (kvs & ->).
  change (d_type Estimate.AddRequest)
    with (TObject (members_of Estimate.AddRequest) (Some TUnknown)) in HA.
  destruct (matches_required_member _ (members_of T) (Some TUnknown) kvs
              ("lot" !: TObject ["acres" !: TString; "depth" !: TString;
                                 "width" !: TString] None)
              HP eq_refl eq_refl) as (w & Hw & HwP).
  cbn [m_name m_type req] in Hw, HwP.
  apply get_member_In in Hw.
  assert (HwA : matches catalog_env w
                        (TObject ["acres" ?: TString; "depth" ?: TNumber; "width" ?: TNumber]
                                 None) = true).
  { exact (matches_member _ _ _ _ "lot" w _ HA Hw eq_refl). }
  destruct (matches_object_only _ _ _ _ HwP) as (l & ->).
  destruct (matches_required_member _ _ _ l ("depth" !: TString) HwP eq_refl eq_refl)
    as (d & Hd & HdP).
  cbn [m_name m_type req] in Hd, HdP.
  apply get_member_In in Hd.
  pose proof (matches_member _ _ _ _ "depth" d ("depth" ?: TNumber) HwA Hd eq_refl) as HdA.
  cbn [m_type opt] in HdA.
  destruct d; discriminate.
Qed.

Lemma Estimate_payload_is_no_AddRequest_witness :
  exists P, field_type Estimate.Estimate "payload" = Some P /\
            conforms P (JObj [("lot", JObj [("depth", JNum (100 # 1))])]) = false.
Proof.
  destruct Estimate_payload_is_no_AddRequest as (_ & P & HP & _ & H).
  exists P. split; [exact HP |]. apply H. reflexivity.
Defined.

(** X9. In the statistics of a SearchResponse the soldPrice, listPrice
    and daysOnMarket blocks have one and the same type, which requires
    all six rolling-period names (grp-30-days, grp-90-days, grp-365-days,
    grp-day, grp-mth, grp-yr) and leaves the aggregates avg, min, max,
    med, sd, sum, mth and yr optional: a block that is given must carry
    every one of the six periods. *)
Theorem SearchResponse_rolling_periods :
  exists S R,
    field_type Listings.SearchResponse "statistics" = Some S /\
    (forall f, In f ["soldPrice"; "listPrice"; "daysOnMarket"] ->
               find_member f (members_of S) = Some (f ?: R)) /\
    required_names (members_of R)
    = ["grp-30-days"; "grp-90-days"; "grp-365-days"; "grp-day"; "grp-mth"; "grp-yr"] /\
    optional_names (members_of R)
    = ["avg"; "min"; "max"; "med"; "sd"; "sum"; "mth"; "yr"] /\
    index_of R = None /\
    (forall f kvs, In f ["soldPrice"; "listPrice"; "daysOnMarket"] ->
                   conforms S (JObj [(f, JObj kvs)]) = true ->
                   forall k, In k (required_names (members_of R)) -> has_key k kvs = true) /\
    (forall f, In f ["soldPrice"; "listPrice"; "daysOnMarket"] ->
               conforms S (JObj [(f, JObj [])]) = false).
Proof.
  set (R := intersect (Record_ Listings.RollingPeriodName Listings.RollingPeriod)
                      Listings.BaseStat).
  set (S := match field_type Listings.SearchResponse "statistics" with
            | Some t => t
            | None => TUnknown
            end).
  assert (Hm : forall f, In f ["soldPrice"; "listPrice"; "daysOnMarket"] ->
                         find_member f (members_of S) = Some (f ?: R))
    by (intros f [<- | [<- | [<- | []]]]; reflexivity).
  exists S, R.
  split; [reflexivity |]. split; [exact Hm |].
  split; [reflexivity |]. split; [reflexivity |]. split; [reflexivity |].
  split.
  - intros f kvs Hf H k Hk. unfold conforms in H.
    change S with (TObject (members_of S) None) in H.
    assert (Hopt : forallb m_optional (members_of S) = true) by reflexivity.
    rewrite (matches_single_member _ _ _ f _ _ Hopt (Hm f Hf)) in H.
    cbn [m_type opt] in H.
    change R with (TObject (members_of R) None) in H.
    exact (matches_required_name _ _ _ _ _ H Hk).
  - intros f [<- | [<- | [<- | []]]]; reflexivity.
Qed.

Lemma SearchResponse_rolling_periods_witness :
  has_key "grp-mth"
          [("grp-30-days", JObj []); ("grp-90-days", JObj []); ("grp-365-days", JObj []);
           ("grp-day", JObj []); ("grp-mth", JObj []); ("grp-yr", JObj [])] = true.
Proof.
  destruct SearchResponse_rolling_periods as (S & R & HS & _ & HR & _ & _ & H & _).
  apply (H "soldPrice").
  - simpl. tauto.
  - injection HS as <-. reflexivity.
  - rewrite HR. simpl. tauto.
Defined.

(** A reference to RangeStat stands for RangeStat. *)
Lemma RangeStat_reference (v : json) :
  conforms (TRef "Listings.RangeStat") v = conforms Listings.RangeStat v.
Proof. destruct v; reflexivity. Qed.

(** X10. RangeStat, the bucket of a monthly or yearly breakdown, is
    BaseStat with a required count and without mth and yr: a bucket
    must carry count, may carry avg, min, max, med, sd and sum, and
    can hold no breakdown of its own.  The value under any key of the
    mth or yr of a BaseStat is judged as such a bucket. *)
Theorem RangeStat_buckets_are_flat :
  required_names (members_of Listings.RangeStat) = ["count"] /\
  optional_names (members_of Listings.RangeStat)
  = ["avg"; "min"; "max"; "med"; "sd"; "sum"] /\
  (forall kvs, conforms Listings.RangeStat (JObj kvs) = true ->
               has_key "count" kvs = true /\
               has_key "mth" kvs = false /\ has_key "yr" kvs = false) /\
  (forall f, In f ["mth"; "yr"] ->
     forall (period : string) (v : json),
       conforms Listings.BaseStat (JObj [(f, JObj [(period, v)])])
       = conforms Listings.RangeStat v).
Proof.
  split; [reflexivity |]. split; [reflexivity |]. split.
  - intros kvs H. unfold conforms in H.
    change Listings.RangeStat with (TObject (members_of Listings.RangeStat) None) in H.
    split.
    + apply (matches_required_name _ _ _ _ _ H). left. reflexivity.
    + pose proof (matches_closed_keys _ _ _ H) as Hkeys.
      split.
      * destruct (has_key "mth" kvs) eqn:E; [| reflexivity].
        exfalso. revert E. intros E. apply Hkeys in E.
        revert E. apply not_mem_In. reflexivity.
      * destruct (has_key "yr" kvs) eqn:E; [| reflexivity].
        exfalso. apply Hkeys in E.
        revert E. apply not_mem_In. reflexivity.
  - intros f Hf period v.
    rewrite <- RangeStat_reference. unfold conforms.
    change (d_type Listings.BaseStat)
      with (TObject (members_of Listings.BaseStat) None).
    assert (Hopt : forallb m_optional (members_of Listings.BaseStat) = true) by reflexivity.
    assert (Hm : find_member f (members_of Listings.BaseStat)
                 = Some (f ?: TObject [] (Some (TRef "Listings.RangeStat"))))
      by (destruct Hf as [<- | [<- | []]]; reflexivity).
    rewrite (matches_single_member _ _ _ f _ _ Hopt Hm). cbn [m_type opt].
    rewrite matches_object. cbn [required_present forallb andb].
    unfold member_ok. cbn [fst snd find_member]. apply andb_true_r.
Qed.

Lemma RangeStat_buckets_are_flat_witness :
  has_key "count" [("count", JNum (12 # 1)); ("avg", JNum (650000 # 1))] = true.
Proof.
  destruct RangeStat_buckets_are_flat as (_ & _ & H & _).
  apply H. reflexivity.
Defined.

(** X11. ImageSearchItem is a tagged union: a value is an item exactly
    when it is an ImageSearchValue or an ImageSearchUrl, never both, and
    the type member tells which: text for a value (which then carries
    value) and image for a url (which then carries url). *)
Theorem ImageSearchItem_is_tagged :
  (forall v, conforms Listings.ImageSearchItem v
             = conforms Listings.ImageSearchValue v || conforms Listings.ImageSearchUrl v) /\
  (forall v, conforms Listings.ImageSearchValue v = true ->
             conforms Listings.ImageSearchUrl v = false) /\
  (forall kvs, conforms Listings.ImageSearchValue (JObj kvs) = true ->
               get_member "type" kvs = Some (JStr "text") /\ has_key "value" kvs = true /\
               has_key "boost" kvs = true) /\
  (forall kvs, conforms Listings.ImageSearchUrl (JObj kvs) = true ->
               get_member "type" kvs = Some (JStr "image") /\ has_key "url" kvs = true /\
               has_key "boost" kvs = true).
Proof.
  assert (Htag : forall (d : decl) (tag : string) (kvs : list (string * json)),
             find_member "type" (members_of d) = Some ("type" !: TLit tag) ->
             matches catalog_env (JObj kvs) (TObject (members_of d) None) = true ->
             get_member "type" kvs = Some (JStr tag)).
  { intros d tag kvs Hm H.
    destruct (matches_required_member _ _ _ kvs ("type" !: TLit tag) H Hm eq_refl)
      as (w & Hw & Hlit).
    cbn [m_name m_type req] in Hw, Hlit. rewrite Hw. f_equal.
    destruct w; try discriminate Hlit.
    rewrite matches_literal in Hlit. apply String.eqb_eq in Hlit. now subst. }
  assert (HV : forall kvs, conforms Listings.ImageSearchValue (JObj kvs) = true ->
               get_member "type" kvs = Some (JStr "text") /\ has_key "value" kvs = true /\
               has_key "boost" kvs = true).
  { intros kvs H. unfold conforms in H.
    change (d_type Listings.ImageSearchValue)
      with (TObject (members_of Listings.ImageSearchValue) None) in H.
    split; [now apply (Htag Listings.ImageSearchValue) |].
    split; apply (matches_required_name _ _ _ _ _ H); apply mem_In; reflexivity. }
  assert (HU : forall kvs, conforms Listings.ImageSearchUrl (JObj kvs) = true ->
               get_member "type" kvs = Some (JStr "image") /\ has_key "url" kvs = true /\
               has_key "boost" kvs = true).
  { intros kvs H. unfold conforms in H.
    change (d_type Listings.ImageSearchUrl)
      with (TObject (members_of Listings.ImageSearchUrl) None) in H.
    split; [now apply (Htag Listings.ImageSearchUrl) |].
    split; apply (matches_required_name _ _ _ _ _ H); apply mem_In; reflexivity. }
  split; [| split; [| split; assumption]].
  - intros v. unfold conforms.
    change Listings.ImageSearchItem
      with (TUnion [d_type Listings.ImageSearchValue; d_type Listings.ImageSearchUrl]).
    rewrite matches_union. cbn [existsb]. now rewrite orb_false_r.
  - intros v H.
    destruct (conforms Listings.ImageSearchUrl v) eqn:E; [exfalso | reflexivity].
    destruct v as [| | | | | kvs]; try discriminate H.
    destruct (HV kvs H) as (Ht & _). destruct (HU kvs E) as (Ht' & _).
    rewrite Ht in Ht'. discriminate Ht'.
Qed.

Lemma ImageSearchItem_is_tagged_witness :
  conforms Listings.ImageSearchUrl
           (JObj [("type", JStr "text"); ("boost", JNum (1 # 1)); ("value", JStr "pool")])
  = false.
Proof.
  destruct ImageSearchItem_is_tagged as (_ & H & _).
  apply H. reflexivity.
Defined.

Lemma find_member_app (k : string) (l1 l2 : list (member ty)) :
  find_member k (l1 ++ l2)
  = match find_member k l1 with
    | Some m => Some m
    | None => find_member k l2
    end.
Proof.
  induction l1 as [| m rest IH]; [reflexivity |].
  cbn [app find_member]. now destruct (m_name m =? k).
Qed.

Lemma find_member_filter (f : member ty -> bool) (k : string) (ms : list (member ty)) :
  (forall m, m_name m = k -> f m = true) ->
  find_member k (filter f ms) = find_member k ms.
Proof.
  intros Hf. induction ms as [| m rest IH]; [reflexivity |].
  cbn [filter find_member]. destruct (m_name m =? k) eqn:E.
  - apply String.eqb_eq in E. rewrite (Hf m E). cbn [find_member].
    apply String.eqb_eq in E. now rewrite E.
  - destruct (f m); [cbn [find_member]; now rewrite E | exact IH].
Qed.

Lemma find_member_filter_out (f : member ty -> bool) (k : string) (ms : list (member ty)) :
  (forall m, m_name m = k -> f m = false) ->
  find_member k (filter f ms) = None.
Proof.
  intros Hf. induction ms as [| m rest IH]; [reflexivity |].
  cbn [filter]. destruct (f m) eqn:E; [| exact IH].
  cbn [find_member]. destruct (m_name m =? k) eqn:En; [| exact IH].
  apply String.eqb_eq in En. rewrite (Hf m En) in E. discriminate E.
Qed.

(** A name looked up in an interface is the interface's own property
    when it declares one, and the inherited property otherwise. *)
Lemma find_member_override (k : string) (inherited_ms own : list (member ty)) :
  find_member k (override inherited_ms own)
  = match find_member k own with
    | Some m => Some m
    | None => find_member k inherited_ms
    end.
Proof.
  unfold override. rewrite find_member_app.
  destruct (find_member k own) as [m |] eqn:E.
  - rewrite find_member_filter_out; [reflexivity |].
    intros m0 <-. apply negb_false_iff. apply mem_In.
    now apply find_member_names with m.
  - rewrite find_member_filter.
    + now destruct (find_member k inherited_ms).
    + intros m0 <-. apply negb_true_iff.
      destruct (existsb (String.eqb (m_name m0)) (names own)) eqn:Ex; [| reflexivity].
      apply mem_In in Ex. unfold names in Ex. apply in_map_iff in Ex as (m1 & Hn & Hin).
      exfalso. clear -E Hn Hin.
      induction own as [| o rest IH]; [destruct Hin |].
      cbn [find_member] in E. destruct (m_name o =? m_name m0) eqn:Eo; [discriminate E |].
      destruct Hin as [-> | Hin]; [| now apply IH].
      rewrite Hn, String.eqb_refl in Eo. discriminate Eo.
Qed.

(** X12. A Clients.UpdateRequest is a Clients.CreateRequest that names
    the client: an object matches UpdateRequest exactly when it matches
    CreateRequest and carries clientId.  (UpdateRequest redeclares
    clientId as required and inherits every other field.) *)
Theorem Clients_UpdateRequest_refines_CreateRequest :
  required_names (members_of Clients.CreateRequest) = [] /\
  required_names (members_of Clients.UpdateRequest) = ["clientId"] /\
  forall kvs,
    conforms Clients.UpdateRequest (JObj kvs)
    = conforms Clients.CreateRequest (JObj kvs) && has_key "clientId" kvs.
Proof.
  split; [reflexivity |]. split; [reflexivity |].
  intros kvs. unfold conforms.
  change (d_type Clients.CreateRequest)
    with (TObject (members_of Clients.CreateRequest) (Some TUnknown)).
  change (d_type Clients.UpdateRequest)
    with (TObject (override (members_of Clients.CreateRequest) ["clientId" !: TNumber])
                  (Some TUnknown)).
  rewrite !matches_object.
  rewrite (required_present_optional (members_of Clients.CreateRequest)) by reflexivity.
  cbn [andb].
  assert (Hreq : required_present
                   (override (members_of Clients.CreateRequest) ["clientId" !: TNumber]) kvs
                 = has_key "clientId" kvs).
  { unfold required_present, override. rewrite forallb_app. cbn [forallb].
    rewrite (proj2 (forallb_forall _ _)).
    - cbn. now rewrite andb_true_r.
    - intros m Hm. apply filter_In in Hm as [Hm _].
      assert (Hopt : forallb m_optional (members_of Clients.CreateRequest) = true)
        by reflexivity.
      rewrite forallb_forall in Hopt. now rewrite (Hopt m Hm). }
  rewrite Hreq, andb_comm. f_equal.
  apply forallb_pointwise. intros [k w]. unfold member_ok. cbn [fst snd].
  rewrite find_member_override. cbn [find_member m_name req].
  destruct ("clientId" =? k) eqn:E; [| reflexivity].
  apply String.eqb_eq in E. subst k. reflexivity.
Qed.

Lemma is_nullable_string_eq (t : ty) :
  is_nullable_string t = true -> t = TUnion [TString; TNull].
Proof.
  destruct t as [| | | | | | | | alts | | | | | | |]; try discriminate.
  destruct alts as [| [] [| [] [| ? ?]]]; try discriminate. reflexivity.
Qed.

(** X13. The six paged responses share one envelope: page, numPages,
    pageSize and count are required numbers and the items come in a
    required array, so a payload that matches one of them holds a number
    under each of the four names and an array under the items name. *)
Theorem paged_responses_envelope :
  forall (d : decl) (items : string), In (d, items) paged_responses ->
    (forall k, In k ["page"; "numPages"; "pageSize"; "count"] ->
               find_member k (members_of d) = Some (k !: TNumber)) /\
    (exists e, find_member items (members_of d) = Some (items !: TArray e)) /\
    forall kvs, conforms d (JObj kvs) = true ->
      (forall k, In k ["page"; "numPages"; "pageSize"; "count"] ->
                 exists q, get_member k kvs = Some (JNum q)) /\
      exists l, get_member items kvs = Some (JArr l).
Proof.
  intros d items Hin.
  assert (Hix : d_type d = TObject (members_of d) (Some TUnknown)).
  { cbn [paged_responses] in Hin.
    repeat (destruct Hin as [[= <- <-] | Hin]; [reflexivity |]). destruct Hin. }
  assert (Hnum : forall k, In k ["page"; "numPages"; "pageSize"; "count"] ->
                           find_member k (members_of d) = Some (k !: TNumber)).
  { intros k Hk. cbn [paged_responses] in Hin.
    repeat (destruct Hin as [[= <- <-] | Hin];
            [destruct Hk as [<- | [<- | [<- | [<- | []]]]]; reflexivity |]).
    destruct Hin. }
  assert (Harr : exists e, find_member items (members_of d) = Some (items !: TArray e)).
  { cbn [paged_responses] in Hin.
    repeat (destruct Hin as [[= <- <-] | Hin]; [eexists; reflexivity |]). destruct Hin. }
  split; [exact Hnum |]. split; [exact Harr |].
  intros kvs H. unfold conforms in H. rewrite Hix in H. split.
  - intros k Hk.
    destruct (matches_required_member _ _ _ kvs (k !: TNumber) H (Hnum k Hk) eq_refl)
      as (w & Hw & Hm).
    cbn [m_name m_type req] in Hw, Hm.
    destruct w; try discriminate Hm. eexists; eassumption.
  - destruct Harr as (e & He).
    destruct (matches_required_member _ _ _ kvs (items !: TArray e) H He eq_refl)
      as (w & Hw & Hm).
    cbn [m_name m_type req] in Hw, Hm.
    destruct w; try discriminate Hm. eexists; eassumption.
Qed.

Lemma paged_responses_envelope_witness :
  exists l, get_member "favorites"
                       [("page", JNum (1 # 1)); ("numPages", JNum (1 # 1));
                        ("pageSize", JNum (10 # 1)); ("count", JNum (0 # 1));
                        ("favorites", JArr [])] = Some (JArr l).
Proof.
  destruct (paged_responses_envelope Favorites.GetResponse "favorites") as (_ & _ & H).
  - unfold paged_responses. simpl. tauto.
  - apply H. reflexivity.
Defined.

(** X14. The clients group types phone and tags differently on the way
    in and on the way out: CreateRequest takes phone as a number and
    tags as a list of strings, while a Client record and a FilterRequest
    hold each as a string.  So a phone or tags value accepted by
    CreateRequest is accepted neither in a FilterRequest nor as the
    field of a Client. *)
Theorem Clients_phone_and_tags_mismatch :
  field_type Clients.CreateRequest "phone" = Some TNumber /\
  field_type Clients.Client "phone" = Some TString /\
  field_type Clients.CreateRequest "tags" = Some (TArray TString) /\
  field_type Clients.Client "tags" = Some TString /\
  forall f, In f ["phone"; "tags"] ->
    forall v, conforms Clients.CreateRequest (JObj [(f, v)]) = true ->
      (forall t, field_type Clients.Client f = Some t -> conforms t v = false) /\
      (forall email, conforms Clients.FilterRequest (JObj [("email", email); (f, v)])
                     = false).
Proof.
  repeat (split; [reflexivity |]).
  intros f Hf v H. unfold conforms in H.
  change (d_type Clients.CreateRequest)
    with (TObject (members_of Clients.CreateRequest) (Some TUnknown)) in H.
  assert (Hopt : forallb m_optional (members_of Clients.CreateRequest) = true) by reflexivity.
  destruct Hf as [<- | [<- | []]].
  - rewrite (matches_single_member _ _ _ "phone" v ("phone" ?: TNumber) Hopt eq_refl) in H.
    cbn [m_type opt] in H. destruct v; try discriminate H. split.
    + intros t [= <-]. reflexivity.
    + intros email. unfold conforms.
      change (d_type Clients.FilterRequest)
        with (TObject (members_of Clients.FilterRequest) (Some TUnknown)).
      rewrite matches_object. apply andb_false_iff. right.
      cbn [forallb]. apply andb_false_iff. right. reflexivity.
  - rewrite (matches_single_member _ _ _ "tags" v ("tags" ?: TArray TString) Hopt eq_refl)
      in H.
    cbn [m_type opt] in H. destruct v; try discriminate H. split.
    + intros t [= <-]. reflexivity.
    + intros email. unfold conforms.
      change (d_type Clients.FilterRequest)
        with (TObject (members_of Clients.FilterRequest) (Some TUnknown)).
      rewrite matches_object. apply andb_false_iff. right.
      cbn [forallb]. apply andb_false_iff. right. reflexivity.
Qed.

Lemma Clients_phone_and_tags_mismatch_witness :
  conforms Clients.FilterRequest
           (JObj [("email", JStr "ada@example.org"); ("phone", JNum (14165550100 # 1))])
  = false.
Proof.
  destruct Clients_phone_and_tags_mismatch as (_ & _ & _ & _ & H).
  destruct (H "phone") with (v := JNum (14165550100 # 1)) as (_ & Hf).
  - simpl. tauto.
  - reflexivity.
  - apply Hf.
Defined.

(** X15. A Clients.FilterRequest must name an email: the field is
    declared without the question mark, as [string | undefined], and a
    JSON payload has no undefined to give, so a matching payload holds a
    string under email.  It is the only required field of the request. *)
Theorem Clients_FilterRequest_needs_email :
  required_names (members_of Clients.FilterRequest) = ["email"] /\
  field_type Clients.FilterRequest "email" = Some (TString <|> TUndefined) /\
  (forall kvs, conforms Clients.FilterRequest (JObj kvs) = true ->
               exists s, get_member "email" kvs = Some (JStr s)) /\
  (forall s, conforms Clients.FilterRequest (JObj [("email", JStr s)]) = true).
Proof.
  split; [reflexivity |]. split; [reflexivity |]. split.
  - intros kvs H. unfold conforms in H.
    change (d_type Clients.FilterRequest)
      with (TObject (members_of Clients.FilterRequest) (Some TUnknown)) in H.
    destruct (matches_required_member _ _ _ kvs ("email" !: (TString <|> TUndefined))
                                      H eq_refl eq_refl) as (w & Hw & Hm).
    cbn [m_name m_type req] in Hw, Hm.
    destruct w; try discriminate Hm. eexists; eassumption.
  - intros s. reflexivity.
Qed.

Lemma Clients_FilterRequest_needs_email_witness :
  exists s, get_member "email" [("email", JStr "ada@example.org"); ("status", JBool true)]
            = Some (JStr s).
Proof.
  destruct Clients_FilterRequest_needs_email as (_ & _ & H & _).
  apply H. reflexivity.
Defined.

Lemma names_find_member (k : string) (ms : list (member ty)) :
  In k (names ms) -> exists m, find_member k ms = Some m.
Proof.
  induction ms as [| m0 rest IH]; [intros [] |].
  cbn [names map find_member]. intros [E | Hin].
  - rewrite E, String.eqb_refl. now exists m0.
  - destruct (m_name m0 =? k); [now exists m0 | now apply IH].
Qed.

Lemma matches_nullable_string (env : string -> option shape) (v : json) :
  matches env v (TUnion [TString; TNull]) = true <-> v = JNull \/ exists s, v = JStr s.
Proof.
  split.
  - destruct v; try discriminate; intros _; [now left | right; now eexists].
  - intros [-> | (s & ->)]; reflexivity.
Qed.

(** A value list with null beside it. *)
Lemma matches_nullable_values (env : string -> option shape) (values : list string) (v : json) :
  matches env v (typeof_number values <|> TNull) = true
  <-> v = JNull \/ exists s, v = JStr s /\ In s values.
Proof.
  unfold typeof_number. cbn [union].
  rewrite matches_union, existsb_app, <- matches_union. cbn [existsb].
  rewrite orb_false_r, orb_true_iff.
  change (TUnion (map TLit values)) with (typeof_number values).
  rewrite matches_typeof_number_inv. split.
  - intros [H | H]; [now right | left; now destruct v].
  - intros [-> | H]; [now right | now left].
Qed.

(** X16. Every field of an Address has three states: it may be left
    out, given as null, or given a value.  The value is any string,
    except for streetDirection, which takes one of n, e, w, s and the
    empty string; nothing else is accepted, and Address admits no field
    beyond the declared ones. *)
Theorem Address_fields_have_three_states :
  conforms Listings.Address (JObj []) = true /\
  index_of Listings.Address = None /\
  (forall k, In k (names (members_of Listings.Address)) -> k <> "streetDirection" ->
     forall v, conforms Listings.Address (JObj [(k, v)]) = true
               <-> v = JNull \/ exists s, v = JStr s) /\
  (forall v, conforms Listings.Address (JObj [("streetDirection", v)]) = true
             <-> v = JNull \/ exists s, v = JStr s /\ In s ["n"; "e"; "w"; "s"; ""]).
Proof.
  assert (Hopt : forallb m_optional (members_of Listings.Address) = true) by reflexivity.
  split; [reflexivity |]. split; [reflexivity |]. split.
  - intros k Hk Hne v.
    destruct (names_find_member _ _ Hk) as (m & Hm).
    assert (Hall : forallb (fun m => (m_name m =? "streetDirection")
                                     || is_nullable_string (m_type m))
                           (members_of Listings.Address) = true) by reflexivity.
    destruct (forallb_find_member _ _ _ _ Hall Hm) as [Hty Hname].
    rewrite Hname in Hty. apply String.eqb_neq in Hne. rewrite Hne in Hty.
    apply is_nullable_string_eq in Hty.
    unfold conforms.
    change (d_type Listings.Address) with (TObject (members_of Listings.Address) None).
    rewrite (matches_single_member _ _ _ _ _ _ Hopt Hm), Hty.
    apply matches_nullable_string.
  - intros v. unfold conforms.
    change (d_type Listings.Address) with (TObject (members_of Listings.Address) None).
    rewrite (matches_single_member _ _ _ "streetDirection" v
               ("streetDirection" ?: (Listings.StreetDirection <|> TNull)) Hopt eq_refl).
    cbn [m_type opt].
    exact (matches_nullable_values catalog_env Listings.StreetDirectionValues v).
Qed.

Lemma Address_fields_have_three_states_witness :
  conforms Listings.Address (JObj [("city", JNull)]) = true.
Proof.
  destruct Address_fields_have_three_states as (_ & _ & H & _).
  apply (H "city").
  - apply mem_In. reflexivity.
  - discriminate.
  - left. reflexivity.
Defined.

(** X17. A Messages.SendRequest needs sender, agentId, clientId and
    content; the sender is agent or client and nothing else; and the
    content, being Partial, may leave out any of listings, searches,
    message, links and pictures but admits no other member. *)
Theorem Messages_SendRequest_shape :
  required_names (members_of Messages.SendRequest)
  = ["sender"; "agentId"; "clientId"; "content"] /\
  exists C,
    field_type Messages.SendRequest "content" = Some C /\
    required_names (members_of C) = [] /\
    names (members_of C) = ["listings"; "searches"; "message"; "links"; "pictures"] /\
    index_of C = None /\
    (forall (s : string) (a c : Q) (body : json),
        conforms Messages.SendRequest
                 (JObj [("sender", JStr s); ("agentId", JNum a); ("clientId", JNum c);
                        ("content", body)])
        = ((s =? "agent") || (s =? "client")) && conforms C body) /\
    conforms C (JObj []) = true /\
    (forall kvs, conforms C (JObj kvs) = true ->
                 forall k, has_key k kvs = true ->
                           In k ["listings"; "searches"; "message"; "links"; "pictures"]).
Proof.
  split; [reflexivity |].
  set (C := match field_type Messages.SendRequest "content" with
            | Some t => t
            | None => TUnknown
            end).
  exists C.
  split; [reflexivity |]. split; [reflexivity |]. split; [reflexivity |].
  split; [reflexivity |]. split; [| split; [reflexivity |]].
  - intros s a c body. unfold conforms.
    change (d_type Messages.SendRequest)
      with (TObject (members_of Messages.SendRequest) (Some TUnknown)).
    rewrite matches_object.
    change (required_present (members_of Messages.SendRequest)
                             [("sender", JStr s); ("agentId", JNum a); ("clientId", JNum c);
                              ("content", body)]) with true.
    cbn [andb forallb]. unfold member_ok. cbn [fst snd].
    change (find_member "sender" (members_of Messages.SendRequest))
      with (Some ("sender" !: TUnion [TLit "agent"; TLit "client"])).
    change (find_member "agentId" (members_of Messages.SendRequest))
      with (Some ("agentId" !: TNumber)).
    change (find_member "clientId" (members_of Messages.SendRequest))
      with (Some ("clientId" !: TNumber)).
    change (find_member "content" (members_of Messages.SendRequest))
      with (Some ("content" !: C)).
    cbn [m_type req]. rewrite matches_union. cbn [existsb].
    rewrite !matches_literal.
    change (matches catalog_env (JNum a) TNumber) with true.
    change (matches catalog_env (JNum c) TNumber) with true.
    cbn [andb]. now rewrite orb_false_r, andb_true_r.
  - intros kvs H. unfold conforms in H.
    change C with (TObject (members_of C) None) in H.
    exact (matches_closed_keys _ _ _ H).
Qed.

Lemma Messages_SendRequest_shape_witness :
  In "message" ["listings"; "searches"; "message"; "links"; "pictures"].
Proof.
  destruct Messages_SendRequest_shape as (_ & C & HC & _ & _ & _ & _ & _ & H).
  injection HC as <-.
  apply (H [("message", JStr "Viewing at noon?")]); reflexivity.
Defined.

(** X18. In the extensible Details the declared fields keep their
    types: den and familyRoom take Y, N or null and nothing else, while
    a key that Details does not declare takes any value.  The
    corresponding flags of a Condominium (ensuiteLaundry and the six
    inclusions of fees) are typed YesNo | string | null and so take any
    string. *)
Theorem Details_flags_are_checked :
  (forall f, In f ["den"; "familyRoom"] ->
     forall v, conforms Listings.Details (JObj [(f, v)]) = true
               <-> v = JNull \/ exists s, v = JStr s /\ In s ["Y"; "N"]) /\
  (forall u v, find_member u (members_of Listings.Details) = None ->
               conforms Listings.Details (JObj [(u, v)]) = true) /\
  (forall s, conforms Listings.Condominium (JObj [("ensuiteLaundry", JStr s)]) = true) /\
  (forall f, In f ["cableIncl"; "heatIncl"; "hydroIncl"; "parkingIncl"; "taxesIncl";
                   "waterIncl"] ->
     forall s, conforms Listings.Condominium (JObj [("fees", JObj [(f, JStr s)])]) = true).
Proof.
  assert (Hopt : forallb m_optional (members_of Listings.Details) = true) by reflexivity.
  split; [| split; [| split]].
  - intros f Hf v. unfold conforms.
    change (d_type Listings.Details)
      with (TObject (members_of Listings.Details) (Some TUnknown)).
    assert (Hm : find_member f (members_of Listings.Details) = Some (f ?: (YesNo <|> TNull)))
      by (destruct Hf as [<- | [<- | []]]; reflexivity).
    rewrite (matches_single_member _ _ _ _ _ _ Hopt Hm). cbn [m_type opt].
    exact (matches_nullable_values catalog_env YesNoValues v).
  - intros u v Hu. unfold conforms.
    change (d_type Listings.Details)
      with (TObject (members_of Listings.Details) (Some TUnknown)).
    rewrite matches_object, required_present_optional by exact Hopt.
    cbn [forallb andb]. now rewrite member_ok_undeclared.
  - intros s. unfold conforms.
    change (d_type Listings.Condominium)
      with (TObject (members_of Listings.Condominium) None).
    rewrite (matches_single_member _ _ _ "ensuiteLaundry" _
               ("ensuiteLaundry" ?: (YesNo <|> TString <|> TNull))); try reflexivity.
    cbn [m_type opt]. unfold YesNo, typeof_number. cbn [union map app YesNoValues].
    rewrite matches_union. cbn [existsb]. rewrite !matches_literal.
    change (matches catalog_env (JStr s) TString) with true.
    now rewrite !orb_true_r.
  - intros f Hf s.
    destruct Hf as [<- | [<- | [<- | [<- | [<- | [<- | []]]]]]];
      unfold conforms;
      change (d_type Listings.Condominium)
        with (TObject (members_of Listings.Condominium) None);
      rewrite !matches_object; cbn; now rewrite ?orb_true_r.
Qed.

Lemma Details_flags_are_checked_witness :
  conforms Listings.Details (JObj [("den", JStr "Y")]) = true /\
  conforms Listings.Details (JObj [("boardSpecific", JNum (1 # 1))]) = true.
Proof.
  destruct Details_flags_are_checked as (Hden & Hany & _). split.
  - apply (Hden "den").
    + simpl. tauto.
    + right. exists "Y". split; [reflexivity | simpl; tauto].
  - apply Hany. reflexivity.
Defined.

(** Adding the index signature to an object type turns no payload
    away. *)
Lemma matches_open_from_closed (env : string -> option shape) (ms : list (member ty))
      (kvs : list (string * json)) :
  matches env (JObj kvs) (TObject ms None) = true ->
  matches env (JObj kvs) (TObject ms (Some TUnknown)) = true.
Proof.
  rewrite !matches_object. intros H. apply andb_true_iff in H as [Hreq Hall].
  rewrite Hreq. cbn [andb]. rewrite forallb_forall in Hall |- *.
  intros [k w] Hin. specialize (Hall _ Hin). unfold member_ok in *. cbn [fst snd] in *.
  destruct (find_member k ms); [exact Hall | discriminate Hall].
Qed.

(** X19. The three client responses CreateResponse, UpdateResponse and
    GetResponse of the clients group are one shape: the fields of Client
    under the index signature of the response marker.  So every Client
    record is a valid body of each of them, and a body may carry unknown
    fields that a bare Client record may not.  Likewise a
    Listings.ListingResponse is matched by exactly the Listings, and an
    Estimate.PatchResponse by exactly the Estimate.GetResponses. *)
Theorem responses_that_extend_a_record :
  (forall d, In d [Clients.CreateResponse; Clients.UpdateResponse; Clients.GetResponse] ->
     members_of d = members_of Clients.Client /\
     index_of d = Some TUnknown /\
     index_of Clients.Client = None /\
     (forall v, conforms Clients.Client v = true -> conforms d v = true) /\
     (forall kvs u w, conforms Clients.Client (JObj kvs) = true ->
                      find_member u (members_of Clients.Client) = None ->
                      conforms d (JObj (kvs ++ [(u, w)])) = true /\
                      conforms Clients.Client (JObj (kvs ++ [(u, w)])) = false)) /\
  (forall v, conforms Listings.ListingResponse v = conforms Listings.Listing v) /\
  (forall v, conforms Estimate.PatchResponse v = conforms Estimate.GetResponse v).
Proof.
  split; [| split; intros v; reflexivity].
  intros d Hd.
  assert (Hty : d_type d = TObject (members_of Clients.Client) (Some TUnknown))
    by (destruct Hd as [<- | [<- | [<- | []]]]; reflexivity).
  assert (Hsub : forall v, conforms Clients.Client v = true -> conforms d v = true).
  { intros v H. unfold conforms in *. rewrite Hty.
    change (d_type Clients.Client) with (TObject (members_of Clients.Client) None) in H.
    destruct (matches_object_only _ _ _ _ H) as (kvs & ->).
    now apply matches_open_from_closed. }
  split; [now rewrite Hty |]. split; [now rewrite Hty |]. split; [reflexivity |].
  split; [exact Hsub |].
  intros kvs u w H Hu. split.
  - apply Hsub in H. unfold conforms in *. rewrite Hty in *.
    now apply matches_extra_member.
  - unfold conforms.
    change (d_type Clients.Client) with (TObject (members_of Clients.Client) None).
    rewrite matches_object. apply andb_false_iff. right.
    rewrite forallb_app. apply andb_false_iff. right.
    cbn [forallb]. unfold member_ok. cbn [fst snd]. now rewrite Hu.
Qed.

Lemma responses_that_extend_a_record_witness :
  conforms Clients.GetResponse
           (JObj [("clientId", JNum (5 # 1)); ("agentId", JNum (9 # 1));
                  ("fname", JStr "Ada"); ("lname", JStr "Byron");
                  ("phone", JStr "14165550100"); ("email", JStr "ada@example.org");
                  ("proxyEmail", JStr "ada@proxy.example.org"); ("status", JBool true);
                  ("lastActivity", JNull); ("tags", JStr "buyer");
                  ("preferences", JObj [("email", JBool true); ("sms", JBool false);
                                       ("unsubscribe", JBool false);
                                       ("whatsapp", JBool false)]);
                  ("expiryDate", JNull); ("createdOn", JStr "2024-01-05");
                  ("externalId", JNull)]) = true.
Proof.
  destruct responses_that_extend_a_record as (H & _).
  destruct (H Clients.GetResponse) as (_ & _ & _ & Hsub & _).
  - simpl. tauto.
  - apply Hsub. reflexivity.
Defined.

(** X20. The ten declarations with an empty body (SimilarResponse,
    NlpRequest, the delete, tag, update, add and send responses) take
    every JSON object and nothing that is not an object. *)
Theorem empty_shapes_take_any_object :
  forall d, In d empty_shapes ->
    members_of d = [] /\
    forall v, conforms d v = true <-> exists kvs, v = JObj kvs.
Proof.
  intros d Hd.
  assert (Hty : d_type d = TObject [] (Some TUnknown)).
  { cbn [empty_shapes] in Hd.
    repeat (destruct Hd as [<- | Hd]; [reflexivity |]). destruct Hd. }
  split; [now rewrite Hty |].
  intros v. unfold conforms. rewrite Hty. split.
  - apply matches_object_only.
  - intros (kvs & ->). rewrite matches_object. cbn [required_present forallb andb].
    apply members_ok_undeclared. intros k [].
Qed.

Lemma empty_shapes_take_any_object_witness :
  conforms Favorites.DeleteResponse (JObj [("favoriteId", JNum (12 # 1))]) = true.
Proof.
  destruct (empty_shapes_take_any_object Favorites.DeleteResponse) as (_ & H).
  - unfold empty_shapes. simpl. tauto.
  - apply H. now eexists.
Defined.

(** X21. A saved search needs clientId, minPrice, maxPrice and type; the
    type is sale or lease; and the two prices are any two numbers, the
    shape putting no order between them. *)
Theorem Searches_CreateRequest_required_fields :
  required_names (members_of Searches.CreateRequest)
  = ["clientId"; "minPrice"; "maxPrice"; "type"] /\
  (forall kvs, conforms Searches.CreateRequest (JObj kvs) = true ->
               forall k, In k ["clientId"; "minPrice"; "maxPrice"; "type"] ->
                         has_key k kvs = true) /\
  (forall (client lo hi : Q) (t : json),
      conforms Searches.CreateRequest
               (JObj [("clientId", JNum client); ("minPrice", JNum lo);
                      ("maxPrice", JNum hi); ("type", t)]) = true
      <-> t = JStr "sale" \/ t = JStr "lease").
Proof.
  split; [reflexivity |]. split.
  - intros kvs H k Hk. unfold conforms in H.
    change (d_type Searches.CreateRequest)
      with (TObject (members_of Searches.CreateRequest) (Some TUnknown)) in H.
    apply (matches_required_name _ _ _ _ _ H).
    destruct Hk as [<- | [<- | [<- | [<- | []]]]]; apply mem_In; reflexivity.
  - intros client lo hi t. unfold conforms.
    change (d_type Searches.CreateRequest)
      with (TObject (members_of Searches.CreateRequest) (Some TUnknown)).
    rewrite matches_object.
    change (required_present (members_of Searches.CreateRequest)
                             [("clientId", JNum client); ("minPrice", JNum lo);
                              ("maxPrice", JNum hi); ("type", t)]) with true.
    cbn [andb forallb]. unfold member_ok. cbn [fst snd].
    change (find_member "clientId" (members_of Searches.CreateRequest))
      with (Some ("clientId" !: TNumber)).
    change (find_member "minPrice" (members_of Searches.CreateRequest))
      with (Some ("minPrice" !: TNumber)).
    change (find_member "maxPrice" (members_of Searches.CreateRequest))
      with (Some ("maxPrice" !: TNumber)).
    change (find_member "type" (members_of Searches.CreateRequest))
      with (Some ("type" !: Type_)).
    cbn [m_type req].
    change (matches catalog_env (JNum client) TNumber) with true.
    change (matches catalog_env (JNum lo) TNumber) with true.
    change (matches catalog_env (JNum hi) TNumber) with true.
    cbn [andb]. rewrite andb_true_r.
    unfold Type_. rewrite matches_typeof_number_inv. split.
    + intros (s & -> & [<- | [<- | []]]); [now left | now right].
    + intros [-> | ->]; eexists; (split; [reflexivity | simpl; tauto]).
Qed.

Lemma Searches_CreateRequest_required_fields_witness :
  has_key "type" [("clientId", JNum (5 # 1)); ("minPrice", JNum (900000 # 1));
                  ("maxPrice", JNum (500000 # 1)); ("type", JStr "lease")] = true.
Proof.
  destruct Searches_CreateRequest_required_fields as (_ & H & _).
  apply H.
  - reflexivity.
  - simpl. tauto.
Defined.
